(** * translator.js: the streaming progress consumer of the translation page

    A shallow embedding of [src/translator.js]: the file-selection check
    ([handleFiles]), the translate click handler with its chunk loop and
    per-line [try]/[catch], [handleProgressUpdate], [addLog],
    [addDownloadButton] and the clear-cache handler.

    Conventions of the embedding.
    - A JavaScript string is a [string]: the sequence of its code units, for
      code units below 256 (the Latin-1 range).
    - The document is the record [Page]: one field per property the script
      assigns, holding the text or value last assigned to it; what the
      style engine makes of a width it is handed is not modelled.  Every element
      the script looks up is taken to exist, except [#downloadBtn], whose
      absence the script tests itself.
    - What the browser decides (number formatting, [JSON.parse],
      [TextDecoder], the wall clock) is a field of the class [Host]; every
      theorem holds for every host.
    - A handler is run to its end without another handler in between; a
      response has a body, and its stream is a finite list of chunks
      followed by its end. *)

From Stdlib Require Import Strings.Byte Strings.Ascii.
From stdpp Require Import base decidable option list strings pretty gmap.

#[local] Arguments String.append : simpl nomatch.

(** ** String.prototype *)

Module Str.

Definition LF : ascii := "010"%char.

(** The one-character text of a line feed. *)
Definition newline : string := String LF EmptyString.

(** [s.split(sep)] for a one-character separator: the pieces between the
    separators, so there is always one piece more than separators. *)
Fixpoint split (sep : ascii) (s : string) : list string :=
  match s with
  | EmptyString => [EmptyString]
  | String c s' =>
      if decide (c = sep) then EmptyString :: split sep s'
      else match split sep s' with
           | [] => [String c EmptyString]
           | piece :: pieces => String c piece :: pieces
           end
  end.

(** WhiteSpace and LineTerminator code units below 256: TAB, LF, VT, FF,
    CR, SP and NBSP. *)
Definition isWhiteSpace (c : ascii) : bool :=
  let n := nat_of_ascii c in
  bool_decide (n = 9 ∨ n = 10 ∨ n = 11 ∨ n = 12 ∨ n = 13 ∨ n = 32 ∨ n = 160).

Fixpoint trimStart (s : string) : string :=
  match s with
  | EmptyString => EmptyString
  | String c s' => if isWhiteSpace c then trimStart s' else s
  end.

Fixpoint trimEnd (s : string) : string :=
  match s with
  | EmptyString => EmptyString
  | String c s' =>
      match trimEnd s' with
      | EmptyString => if isWhiteSpace c then EmptyString else String c EmptyString
      | t => String c t
      end
  end.

Definition trim (s : string) : string := trimEnd (trimStart s).

(** ToBoolean of a string: the empty string is the only falsy one. *)
Definition truthy (s : string) : bool :=
  match s with EmptyString => false | String _ _ => true end.

(** Lower-casing of one code unit below 256: A-Z, and the capital letters
    U+00C0..U+00DE without the multiplication sign U+00D7. *)
Definition lowerChar (c : ascii) : ascii :=
  let n := nat_of_ascii c in
  if bool_decide (65 ≤ n ≤ 90) || (bool_decide (192 ≤ n ≤ 222) && negb (bool_decide (n = 215)))
  then ascii_of_nat (n + 32) else c.

Fixpoint toLowerCase (s : string) : string :=
  match s with
  | EmptyString => EmptyString
  | String c s' => String (lowerChar c) (toLowerCase s')
  end.

(** [s.endsWith(suffix)]: [suffix] is [s] itself or the end of its tail. *)
Fixpoint endsWith (s suffix : string) : bool :=
  bool_decide (s = suffix) ||
  match s with
  | EmptyString => false
  | String _ s' => endsWith s' suffix
  end.


End Str.

(** ** Values of the JSON wire format *)

Section Values.

Variable number : Type.

(** What a field of a record, or a top-level scalar, can hold. *)
Inductive JSValue : Type :=
| JSNull
| JSBool (b : bool)
| JSNumber (n : number)
| JSString (s : string).

(** What [JSON.parse] can return: a scalar, an array, or an object whose
    own properties are a finite map from keys to values.  Values nested
    inside an array or an object are scalars, as in the stream protocol. *)
Inductive JSData : Type :=
| JSPrim (v : JSValue)
| JSArray (items : list JSValue)
| JSObject (fields : gmap string JSValue).

End Values.

Arguments JSNull {number}.
Arguments JSBool {number} b.
Arguments JSNumber {number} n.
Arguments JSString {number} s.
Arguments JSPrim {number} v.
Arguments JSArray {number} items.
Arguments JSObject {number} fields.

(** What a [catch] clause can receive. *)
Inductive Error : Type :=
| SyntaxError                     (* raised by [JSON.parse] *)
| TypeError                       (* raised by a property read on [null] *)
| ReferenceError                  (* raised by an identifier with no binding *)
| ErrorWith (message : string).   (* an error object made with this message *)

(** ** The host environment *)

Class Host : Type := {
  (** the Number type, with Number::toString and ToBoolean on it *)
  number : Type;
  Number_toString : number → string;
  Number_truthy : number → bool;
  (** [JSON.parse(text)]; [None] is a thrown SyntaxError *)
  JSON_parse : string → option (JSData number);
  (** [new TextDecoder().decode(value)] *)
  TextDecoder_decode : list byte → string;
  (** [new Date().toLocaleTimeString()] at the n-th reading of the clock *)
  toLocaleTimeString : nat → string;
  (** [error.message] of an error the engine raises itself *)
  engineMessage : Error → string;
}.

(** ** The document and the servers' answers *)

Record File : Type := { name : string; content : list byte }.

(** The page's inputs, which the handlers only read. *)
Record Inputs : Type := {
  fileInput_files : list File;
  targetLang_value : string;
  engine_value : string;
  generateSummary_checked : bool;
  toneSelect_value : string;
  pdfEngine_value : string;
}.

Record FormData : Type := {
  fd_file : File;
  fd_targetLang : string;
  fd_engine : string;
  fd_generateSummary : bool;
  fd_tone : string;
  fd_pdfEngine : string;
}.

Inductive Request : Type :=
| PostTranslate (body : FormData)
| PostClearCache.

(** How a body stream ends: [done] is reported, or a read is rejected. *)
Inductive StreamEnd : Type :=
| StreamDone
| StreamError (message : string).

Record Body : Type := { chunks : list (list byte); ending : StreamEnd }.

(** The answer to [fetch('/translate', ...)]. *)
Inductive FetchResult : Type :=
| FetchRejected (message : string)
| FetchResponse (status : nat) (body : Body).

(** [response.ok]: the status is in the range 200-299. *)
Definition response_ok (status : nat) : bool := bool_decide (200 ≤ status ≤ 299).

(** A statement list either runs to its end, with a result, or throws;
    what was assigned before the throw stays assigned. *)
Inductive Completion (A S : Type) : Type :=
| Normal (result : A)
| Throw (e : Error) (state : S).

Arguments Normal {A S} result.
Arguments Throw {A S} e state.

Inductive Outcome : Type := Completed | Incomplete | Failed.

Section Translator.

Context `{Host}.

Abbreviation Value := (JSValue number).
Abbreviation Data := (JSData number).

(** *** Conversions *)

(** ToString of a value, as string concatenation and template literals
    apply it. *)
Definition ToString (v : Value) : string :=
  match v with
  | JSNull => "null"
  | JSBool true => "true"
  | JSBool false => "false"
  | JSNumber n => Number_toString n
  | JSString s => s
  end.

(** ToBoolean of a value. *)
Definition ToBoolean (v : Value) : bool :=
  match v with
  | JSNull => false
  | JSBool b => b
  | JSNumber n => Number_truthy n
  | JSString s => Str.truthy s
  end.

(** [data.key] for [data] other than [null], for the keys the script
    reads; [None] is [undefined]. *)
Definition prop (data : Data) (key : string) : option Value :=
  match data with
  | JSObject fields => fields !! key
  | _ => None
  end.

(** ToBoolean of [data.key]; [undefined] is falsy. *)
Definition truthyProp (data : Data) (key : string) : bool :=
  from_option ToBoolean false (prop data key).

(** ToString of [data.key]. *)
Definition propString (data : Data) (key : string) : string :=
  from_option ToString "undefined" (prop data key).

(** What [node.textContent = data.key] stores: [null] is stored as the
    empty text. *)
Definition propText (data : Data) (key : string) : string :=
  match prop data key with
  | Some JSNull => ""
  | _ => propString data key
  end.

Definition message_of (e : Error) : string :=
  match e with
  | ErrorWith message => message
  | _ => engineMessage e
  end.

(** *** The document *)

(** [summarySection.style.display], [summaryDisplay.textContent], the two
    summary buttons, and the closure variable [currentSummary]. *)
Record SummaryPanel : Type := {
  summarySection_display : string;
  summaryDisplay_textContent : string;
  editSummaryBtn_disabled : bool;
  exportSummaryBtn_disabled : bool;
  currentSummary : Value;
}.

(** The [#downloadBtn] element: where its click handler navigates to, if
    it has a handler. *)
Record Button : Type := { onclick_href : option Value }.

Record Page : Type := {
  fileName_textContent : string;
  translateBtn_disabled : bool;
  progressSection_display : string;
  progressBar_width : string;
  status_textContent : string;
  apiCalls_textContent : string;
  cached_textContent : string;
  logContainer : list string;
  clockReads : nat;
  summary : SummaryPanel;
  downloadBtn : option Button;
  requests : list Request;
}.

(** One assignment to one property; the other properties keep their values. *)

Definition set_fileName_textContent (v : string) (p : Page) : Page :=
  {| fileName_textContent := v;
     translateBtn_disabled := translateBtn_disabled p;
     progressSection_display := progressSection_display p;
     progressBar_width := progressBar_width p;
     status_textContent := status_textContent p;
     apiCalls_textContent := apiCalls_textContent p;
     cached_textContent := cached_textContent p;
     logContainer := logContainer p;
     clockReads := clockReads p;
     summary := summary p;
     downloadBtn := downloadBtn p;
     requests := requests p |}.

Definition set_translateBtn_disabled (v : bool) (p : Page) : Page :=
  {| fileName_textContent := fileName_textContent p;
     translateBtn_disabled := v;
     progressSection_display := progressSection_display p;
     progressBar_width := progressBar_width p;
     status_textContent := status_textContent p;
     apiCalls_textContent := apiCalls_textContent p;
     cached_textContent := cached_textContent p;
     logContainer := logContainer p;
     clockReads := clockReads p;
     summary := summary p;
     downloadBtn := downloadBtn p;
     requests := requests p |}.

Definition set_progressSection_display (v : string) (p : Page) : Page :=
  {| fileName_textContent := fileName_textContent p;
     translateBtn_disabled := translateBtn_disabled p;
     progressSection_display := v;
     progressBar_width := progressBar_width p;
     status_textContent := status_textContent p;
     apiCalls_textContent := apiCalls_textContent p;
     cached_textContent := cached_textContent p;
     logContainer := logContainer p;
     clockReads := clockReads p;
     summary := summary p;
     downloadBtn := downloadBtn p;
     requests := requests p |}.

Definition set_progressBar_width (v : string) (p : Page) : Page :=
  {| fileName_textContent := fileName_textContent p;
     translateBtn_disabled := translateBtn_disabled p;
     progressSection_display := progressSection_display p;
     progressBar_width := v;
     status_textContent := status_textContent p;
     apiCalls_textContent := apiCalls_textContent p;
     cached_textContent := cached_textContent p;
     logContainer := logContainer p;
     clockReads := clockReads p;
     summary := summary p;
     downloadBtn := downloadBtn p;
     requests := requests p |}.

Definition set_status_textContent (v : string) (p : Page) : Page :=
  {| fileName_textContent := fileName_textContent p;
     translateBtn_disabled := translateBtn_disabled p;
     progressSection_display := progressSection_display p;
     progressBar_width := progressBar_width p;
     status_textContent := v;
     apiCalls_textContent := apiCalls_textContent p;
     cached_textContent := cached_textContent p;
     logContainer := logContainer p;
     clockReads := clockReads p;
     summary := summary p;
     downloadBtn := downloadBtn p;
     requests := requests p |}.

Definition set_apiCalls_textContent (v : string) (p : Page) : Page :=
  {| fileName_textContent := fileName_textContent p;
     translateBtn_disabled := translateBtn_disabled p;
     progressSection_display := progressSection_display p;
     progressBar_width := progressBar_width p;
     status_textContent := status_textContent p;
     apiCalls_textContent := v;
     cached_textContent := cached_textContent p;
     logContainer := logContainer p;
     clockReads := clockReads p;
     summary := summary p;
     downloadBtn := downloadBtn p;
     requests := requests p |}.

Definition set_cached_textContent (v : string) (p : Page) : Page :=
  {| fileName_textContent := fileName_textContent p;
     translateBtn_disabled := translateBtn_disabled p;
     progressSection_display := progressSection_display p;
     progressBar_width := progressBar_width p;
     status_textContent := status_textContent p;
     apiCalls_textContent := apiCalls_textContent p;
     cached_textContent := v;
     logContainer := logContainer p;
     clockReads := clockReads p;
     summary := summary p;
     downloadBtn := downloadBtn p;
     requests := requests p |}.

Definition set_logContainer (v : list string) (p : Page) : Page :=
  {| fileName_textContent := fileName_textContent p;
     translateBtn_disabled := translateBtn_disabled p;
     progressSection_display := progressSection_display p;
     progressBar_width := progressBar_width p;
     status_textContent := status_textContent p;
     apiCalls_textContent := apiCalls_textContent p;
     cached_textContent := cached_textContent p;
     logContainer := v;
     clockReads := clockReads p;
     summary := summary p;
     downloadBtn := downloadBtn p;
     requests := requests p |}.

Definition set_clockReads (v : nat) (p : Page) : Page :=
  {| fileName_textContent := fileName_textContent p;
     translateBtn_disabled := translateBtn_disabled p;
     progressSection_display := progressSection_display p;
     progressBar_width := progressBar_width p;
     status_textContent := status_textContent p;
     apiCalls_textContent := apiCalls_textContent p;
     cached_textContent := cached_textContent p;
     logContainer := logContainer p;
     clockReads := v;
     summary := summary p;
     downloadBtn := downloadBtn p;
     requests := requests p |}.

Definition set_summary (v : SummaryPanel) (p : Page) : Page :=
  {| fileName_textContent := fileName_textContent p;
     translateBtn_disabled := translateBtn_disabled p;
     progressSection_display := progressSection_display p;
     progressBar_width := progressBar_width p;
     status_textContent := status_textContent p;
     apiCalls_textContent := apiCalls_textContent p;
     cached_textContent := cached_textContent p;
     logContainer := logContainer p;
     clockReads := clockReads p;
     summary := v;
     downloadBtn := downloadBtn p;
     requests := requests p |}.

Definition set_downloadBtn (v : option Button) (p : Page) : Page :=
  {| fileName_textContent := fileName_textContent p;
     translateBtn_disabled := translateBtn_disabled p;
     progressSection_display := progressSection_display p;
     progressBar_width := progressBar_width p;
     status_textContent := status_textContent p;
     apiCalls_textContent := apiCalls_textContent p;
     cached_textContent := cached_textContent p;
     logContainer := logContainer p;
     clockReads := clockReads p;
     summary := summary p;
     downloadBtn := v;
     requests := requests p |}.

Definition set_requests (v : list Request) (p : Page) : Page :=
  {| fileName_textContent := fileName_textContent p;
     translateBtn_disabled := translateBtn_disabled p;
     progressSection_display := progressSection_display p;
     progressBar_width := progressBar_width p;
     status_textContent := status_textContent p;
     apiCalls_textContent := apiCalls_textContent p;
     cached_textContent := cached_textContent p;
     logContainer := logContainer p;
     clockReads := clockReads p;
     summary := summary p;
     downloadBtn := downloadBtn p;
     requests := v |}.

(** *** Helper functions of the script *)

(** [addLog(message)]: one more entry at the end of the log, stamped with
    the time of this reading of the clock. *)
Definition addLog (message : string) (p : Page) : Page :=
  let timestamp := toLocaleTimeString (clockReads p) in
  set_logContainer (logContainer p ++ ["[" +:+ timestamp +:+ "] " +:+ message])
    (set_clockReads (S (clockReads p)) p).

(** [fetch(...)]: the request leaves the page. *)
Definition send (r : Request) (p : Page) : Page :=
  set_requests (requests p ++ [r]) p.

(** [handleProgressUpdate(data)].  The first property read throws on
    [null]; the last test only writes to the console.  [progressBar_width]
    holds the text handed to [style.width], whether or not the style
    engine takes it as a width. *)
Definition handleProgressUpdate (data : Data) (p : Page) : Completion Page Page :=
  match data with
  | JSPrim JSNull => Throw TypeError p
  | _ =>
      let p := if bool_decide (is_Some (prop data "progress"))
               then set_progressBar_width (propString data "progress" +:+ "%") p else p in
      let p := if truthyProp data "status"
               then set_status_textContent (propText data "status") p else p in
      let p := if bool_decide (is_Some (prop data "apiCalls"))
               then set_apiCalls_textContent (propText data "apiCalls") p else p in
      let p := if bool_decide (is_Some (prop data "cached"))
               then set_cached_textContent (propText data "cached") p else p in
      let p := if truthyProp data "message"
               then addLog (propString data "message") p else p in
      Normal p
  end.

(** [addDownloadButton(downloadUrl)]: the button is made if the document
    has none, and its click handler is bound to [downloadUrl]. *)
Definition addDownloadButton (downloadUrl : Value) (p : Page) : Page :=
  let p := set_downloadBtn (Some {| onclick_href := Some downloadUrl |}) p in
  addLog "Download ready! Click the download button to save the translated document." p.

(** *** File selection *)

(** The test of [handleFiles] on a file name. *)
Definition acceptsName (fileName : string) : bool :=
  Str.endsWith (Str.toLowerCase fileName) ".docx" ||
  Str.endsWith (Str.toLowerCase fileName) ".pdf".

(** [handleFiles(files)]. *)
Definition handleFiles (files : list File) (p : Page) : Page :=
  match files with
  | [] => p
  | file :: _ =>
      if acceptsName (name file) then
        let p := set_fileName_textContent (name file) p in
        let p := set_translateBtn_disabled false p in
        addLog ("File selected: " +:+ name file) p
      else
        let p := set_fileName_textContent "Please select a DOCX or PDF file" p in
        let p := set_translateBtn_disabled true p in
        addLog "Error: Invalid file type. Please select a DOCX or PDF file." p
  end.

(** *** The translation run *)

(** The [let] variables of one run. *)
Record Run : Type := {
  translationComplete : bool;
  summaryGenerated : bool;
  finalDownloadUrl : Value;
}.

Definition newRun : Run :=
  {| translationComplete := false; summaryGenerated := false; finalDownloadUrl := JSNull |}.

(** [text.split('\n').filter(line => line.trim())] *)
Definition updatesOf (text : string) : list string :=
  filter (λ line, Is_true (Str.truthy (Str.trim line))) (Str.split Str.LF text).

(** The [try] block of the [forEach] callback.  [logger] has no binding in
    the script, so evaluating [logger.info] throws before the summary is
    looked at. *)
Definition tryUpdate (update : string) (st : Page * Run)
    : Completion (Page * Run) (Page * Run) :=
  let '(p, r) := st in
  match JSON_parse update with
  | None => Throw SyntaxError (p, r)
  | Some data =>
      match handleProgressUpdate data p with
      | Throw e p => Throw e (p, r)
      | Normal p =>
          if truthyProp data "downloadUrl" then
            let r := {| finalDownloadUrl := default JSNull (prop data "downloadUrl");
                        translationComplete := true;
                        summaryGenerated := summaryGenerated r |} in
            Throw ReferenceError (p, r)
          else if truthyProp data "summary" then
            let r := {| summaryGenerated := true;
                        translationComplete := translationComplete r;
                        finalDownloadUrl := finalDownloadUrl r |} in
            let p := set_summary
                       {| currentSummary := default JSNull (prop data "summary");
                          summaryDisplay_textContent := propText data "summary";
                          summarySection_display := "block";
                          editSummaryBtn_disabled := false;
                          exportSummaryBtn_disabled := false |} p in
            Normal (addLog "Document summary generated and displayed" p, r)
          else Normal (p, r)
      end
  end.

(** The [forEach] callback: the [try] block, and the [catch] clause that
    logs the line. *)
Definition processUpdate (st : Page * Run) (update : string) : Page * Run :=
  match tryUpdate update st with
  | Normal st => st
  | Throw _ (p, r) => (addLog ("Non-JSON update: " +:+ update) p, r)
  end.

(** One turn of the [while] loop on a chunk that was read. *)
Definition processChunk (st : Page * Run) (value : list byte) : Page * Run :=
  foldl processUpdate st (updatesOf (TextDecoder_decode value)).

(** The [while] loop: the chunks in order, then the end of the stream. *)
Definition readLoop (body : Body) (st : Page * Run)
    : Completion (Page * Run) (Page * Run) :=
  let '(p, r) := foldl processChunk st (chunks body) in
  match ending body with
  | StreamDone => Normal (addLog "Stream complete" p, r)
  | StreamError message => Throw (ErrorWith message) (p, r)
  end.

(** The statements after the loop. *)
Definition afterStream (st : Page * Run) : Page * Outcome :=
  let '(p, r) := st in
  if translationComplete r && ToBoolean (finalDownloadUrl r) then
    let p := set_status_textContent "Translation completed" p in
    let p := set_progressBar_width "100%" p in
    let p := addDownloadButton (finalDownloadUrl r) p in
    (addLog "Translation process finished successfully. Download ready." p, Completed)
  else
    let p := if bool_decide (status_textContent p ≠ "Error")
             then set_status_textContent "Translation incomplete or failed" p else p in
    (addLog "Translation process finished with errors or was incomplete." p, Incomplete).

(** The [try] block of the click handler. *)
Definition tryTranslate (formData : FormData) (server : FetchResult) (p : Page)
    : Completion (Page * Outcome) Page :=
  let p := addLog "Sending file to server..." p in
  let p := send (PostTranslate formData) p in
  match server with
  | FetchRejected message => Throw (ErrorWith message) p
  | FetchResponse status body =>
      if negb (response_ok status) then
        Throw (ErrorWith ("Translation failed with status: " +:+ pretty status)) p
      else
        let p := addLog "Connected to server stream. Waiting for updates..." p in
        match readLoop body (p, newRun) with
        | Throw e (p, _) => Throw e p
        | Normal st => Normal (afterStream st)
        end
  end.

(** The click handler once a file is there: set-up, [try], [catch] and
    [finally]. *)
Definition translateRun (file : File) (inputs : Inputs) (server : FetchResult) (p : Page)
    : Page * Outcome :=
  let formData := {| fd_file := file;
                     fd_targetLang := targetLang_value inputs;
                     fd_engine := engine_value inputs;
                     fd_generateSummary := generateSummary_checked inputs;
                     fd_tone := toneSelect_value inputs;
                     fd_pdfEngine := pdfEngine_value inputs |} in
  let p := set_progressSection_display "block" p in
  let p := set_translateBtn_disabled true p in
  let p := set_status_textContent "Translating..." p in
  let p := set_progressBar_width "0%" p in
  let p := set_logContainer [] p in
  let p := addLog "Starting translation process..." p in
  let '(p, outcome) :=
    match tryTranslate formData server p with
    | Normal result => result
    | Throw e p =>
        let p := set_status_textContent "Error" p in
        (addLog ("Error during translation: " +:+ message_of e) p, Failed)
    end in
  (set_translateBtn_disabled false p, outcome).

(** The click handler of [translateBtn]; [None] when it returns at once. *)
Definition translateClick (inputs : Inputs) (server : FetchResult) (p : Page)
    : Page * option Outcome :=
  match fileInput_files inputs with
  | [] => (p, None)
  | file :: _ =>
      let '(p, outcome) := translateRun file inputs server p in (p, Some outcome)
  end.

(** *** Clearing the cache *)

(** What [response.json()] settles to. *)
Inductive JsonResult : Type :=
| JsonRejected (message : string)
| JsonValue (data : Data).

(** The answer to [fetch('/clear-cache', ...)]. *)
Inductive CacheResult : Type :=
| CacheRejected (message : string)
| CacheResponse (status : nat) (json : JsonResult).

Definition tryClearCache (server : CacheResult) (p : Page) : Completion Page Page :=
  let p := send PostClearCache p in
  match server with
  | CacheRejected message => Throw (ErrorWith message) p
  | CacheResponse status json =>
      if negb (response_ok status) then Throw (ErrorWith "Failed to clear cache") p
      else match json with
           | JsonRejected message => Throw (ErrorWith message) p
           | JsonValue data =>
               let p := set_apiCalls_textContent "0" p in
               let p := set_cached_textContent "0" p in
               match data with
               | JSPrim JSNull => Throw TypeError p
               | _ => Normal (addLog ("Cache cleared: " +:+ propString data "message") p)
               end
           end
  end.

(** The click handler of [clearCacheBtn]. *)
Definition clearCacheClick (server : CacheResult) (p : Page) : Page :=
  match tryClearCache server p with
  | Normal p => p
  | Throw e p => addLog ("Error clearing cache: " +:+ message_of e) p
  end.

(** *** What a stream carries *)

(** The lines the [forEach] callback is called on during a run, in order:
    each chunk is decoded and split on its own. *)
Definition decodedLines (chunks : list (list byte)) : list string :=
  chunks ≫= (λ value, updatesOf (TextDecoder_decode value)).

(** The download URL a line announces: the [downloadUrl] of the record it
    parses to, when that is truthy. *)
Definition announcedUrl (update : string) : option Value :=
  data ← JSON_parse update;
  url ← prop data "downloadUrl";
  if ToBoolean url then Some url else None.

(** The download URL a stream leaves recorded when it is read to its end
    after a successful submission: the last one announced. *)
Definition terminalDownloadUrl (server : FetchResult) : option Value :=
  match server with
  | FetchRejected _ => None
  | FetchResponse status body =>
      if response_ok status then
        match ending body with
        | StreamDone => last (omap announcedUrl (decodedLines (chunks body)))
        | StreamError _ => None
        end
      else None
  end.

(** The cache-clear request failed: the fetch was rejected, the response
    was not a success, or its body did not parse. *)
Definition cacheFailed (server : CacheResult) : bool :=
  match server with
  | CacheRejected _ => true
  | CacheResponse status json =>
      negb (response_ok status) ||
      match json with JsonRejected _ => true | JsonValue _ => false end
  end.

(** The text of the entry [addLog(message)] appends to page [p]. *)
Definition logEntry (p : Page) (message : string) : string :=
  "[" +:+ toLocaleTimeString (clockReads p) +:+ "] " +:+ message.

End Translator.

(** ** The file-selection rule in the specification's words *)

Module Spec.

(** The suffix of a file name: what follows its last full stop. *)
Fixpoint suffix (fileName : string) : option string :=
  match fileName with
  | EmptyString => None
  | String c rest =>
      match suffix rest with
      | Some s => Some s
      | None => if decide (c = "."%char) then Some rest else None
      end
  end.

(** A name is accepted when its suffix, lower-cased, is docx or pdf. *)
Definition accepts (fileName : string) : Prop :=
  ∃ s, suffix fileName = Some s ∧ (Str.toLowerCase s = "docx" ∨ Str.toLowerCase s = "pdf").

End Spec.

(** ** A sample host and sample streams *)

Module Sample.

Definition quote : string := String "034"%char EmptyString.

(** The texts of a JSON object with one, and with two, string members. *)
Definition member (key value : string) : string :=
  quote +:+ key +:+ quote +:+ ":" +:+ quote +:+ value +:+ quote.
Definition object1 (key value : string) : string := "{" +:+ member key value +:+ "}".
Definition object2 (key value key2 value2 : string) : string :=
  "{" +:+ member key value +:+ "," +:+ member key2 value2 +:+ "}".

(** A record with the number 10 as [progress] and a [message]. *)
Definition progressAndMessage : string :=
  "{" +:+ quote +:+ "progress" +:+ quote +:+ ":10," +:+ member "message" "start" +:+ "}".
Definition urlA : string := object1 "downloadUrl" "/a".
Definition urlB : string := object1 "downloadUrl" "/b".
Definition summaryAndUrl : string := object2 "summary" "ok" "downloadUrl" "/x".
(** A record with a stray quote after the number 5, which is not JSON. *)
Definition malformed : string := "{" +:+ quote +:+ "progress" +:+ quote +:+ ":5" +:+ quote +:+ "}".

(** [JSON.parse] on the sample lines; every other text it is applied to
    below is not JSON. *)
Definition parse (text : string) : option (JSData Z) :=
  if decide (text = progressAndMessage)
  then Some (JSObject {[ "progress" := JSNumber 10%Z; "message" := JSString "start" ]})
  else if decide (text = urlA) then Some (JSObject {[ "downloadUrl" := JSString "/a" ]})
  else if decide (text = urlB) then Some (JSObject {[ "downloadUrl" := JSString "/b" ]})
  else if decide (text = summaryAndUrl)
       then Some (JSObject {[ "summary" := JSString "ok"; "downloadUrl" := JSString "/x" ]})
  else None.

(** A host with integer numbers, a clock that counts its readings, and
    streams of ASCII text. *)
Definition host : Host :=
  {| number := Z;
     Number_toString := pretty;
     Number_truthy := λ n, bool_decide (n ≠ 0%Z);
     JSON_parse := parse;
     TextDecoder_decode := String.string_of_list_byte;
     toLocaleTimeString := pretty;
     engineMessage := λ e, match e with
                           | SyntaxError => "Unexpected token"
                           | TypeError => "Cannot read properties of null"
                           | ReferenceError => "logger is not defined"
                           | ErrorWith message => message
                           end |}.

Definition bytes (text : string) : list byte := String.list_byte_of_string text.

(** A page as it is loaded, before any handler has run. *)
Definition page : Page (H:=host) :=
  {| fileName_textContent := "";
     translateBtn_disabled := true;
     progressSection_display := "none";
     progressBar_width := "0%";
     status_textContent := "";
     apiCalls_textContent := "0";
     cached_textContent := "0";
     logContainer := [];
     clockReads := 0;
     summary := {| summarySection_display := "none";
                   summaryDisplay_textContent := "";
                   editSummaryBtn_disabled := true;
                   exportSummaryBtn_disabled := true;
                   currentSummary := JSString "" |};
     downloadBtn := None;
     requests := [] |}.

(** The three lines of the specification's example run, each ended by a
    line feed, as one chunk of a stream that is read to its end. *)
Definition exampleStream : FetchResult :=
  FetchResponse 200
    {| chunks := [bytes (progressAndMessage +:+ Str.newline +:+ malformed +:+ Str.newline
                         +:+ summaryAndUrl +:+ Str.newline)];
       ending := StreamDone |}.

Definition exampleFile : File := {| name := "report.docx"; content := [] |}.

Definition noInputs : Inputs :=
  {| fileInput_files := [];
     targetLang_value := "fr";
     engine_value := "default";
     generateSummary_checked := false;
     toneSelect_value := "neutral";
     pdfEngine_value := "default" |}.

End Sample.

(** ** The other handlers of the page *)

(** A drag event delivered to the page; a drop carries
    [e.dataTransfer.files]. *)
Inductive DragEvent : Type :=
| DragEnter
| DragOver
| DragLeave
| Drop (files : list File).

(** What the listeners can change of the event object itself. *)
Record EventFlags : Type := {
  cancelable : bool;
  defaultPrevented : bool;
  propagationStopped : bool;
}.

(** The summary editor and the four [style.display] properties the edit
    and save handlers assign.  [summaryEditor] is a text area, and
    [summaryEditor_value] is what reading [summaryEditor.value] gives: the
    text typed, or the text assigned with its line breaks normalised. *)
Record Editor : Type := {
  summaryEditor_value : string;
  summaryEditor_display : string;
  summaryDisplay_display : string;
  editSummaryBtn_display : string;
  saveSummaryBtn_display : string;
}.

(** What [response.blob()] settles to. *)
Inductive BlobResult : Type :=
| BlobRejected (message : string)
| BlobBytes (bytes : list byte).

(** The answer to [fetch('/export-summary', ...)]. *)
Inductive ExportResult : Type :=
| ExportRejected (message : string)
| ExportResponse (status : nat) (blob : BlobResult).

(** A file the page makes the browser save: the click on the anchor with
    its [download] attribute. *)
Record Download : Type := { download_bytes : list byte; download_name : string }.

(** The line-break normalisation of a text area's value: a carriage return
    followed by a line feed, and any other carriage return, reads back as
    one line feed. *)
Fixpoint normalizeLineBreaks (s : string) : string :=
  match s with
  | EmptyString => EmptyString
  | String c rest =>
      if decide (c = "013"%char) then
        match rest with
        | String d rest' =>
            if decide (d = Str.LF) then String Str.LF (normalizeLineBreaks rest')
            else String Str.LF (normalizeLineBreaks rest)
        | EmptyString => String Str.LF EmptyString
        end
      else String c (normalizeLineBreaks rest)
  end.

Section OtherHandlers.

Context `{Host}.

(** *** Summary editing *)

(** The click handler of [editSummaryBtn]. *)
Definition editSummaryClick (st : Page * Editor) : Page * Editor :=
  let '(p, _) := st in
  (p, {| summaryEditor_value :=
           normalizeLineBreaks (summaryDisplay_textContent (summary p));
         summaryDisplay_display := "none";
         summaryEditor_display := "block";
         editSummaryBtn_display := "none";
         saveSummaryBtn_display := "inline-flex" |}).

(** The click handler of [saveSummaryBtn]. *)
Definition saveSummaryClick (st : Page * Editor) : Page * Editor :=
  let '(p, editor) := st in
  let p := set_summary
             {| currentSummary := JSString (summaryEditor_value editor);
                summaryDisplay_textContent := summaryEditor_value editor;
                summarySection_display := summarySection_display (summary p);
                editSummaryBtn_disabled := editSummaryBtn_disabled (summary p);
                exportSummaryBtn_disabled := exportSummaryBtn_disabled (summary p) |} p in
  (p, {| summaryEditor_value := summaryEditor_value editor;
         summaryEditor_display := "none";
         summaryDisplay_display := "block";
         saveSummaryBtn_display := "none";
         editSummaryBtn_display := "inline-flex" |}).

(** The user types in the editor. *)
Definition typeSummary (text : string) (st : Page * Editor) : Page * Editor :=
  let '(p, editor) := st in
  (p, {| summaryEditor_value := text;
         summaryEditor_display := summaryEditor_display editor;
         summaryDisplay_display := summaryDisplay_display editor;
         editSummaryBtn_display := editSummaryBtn_display editor;
         saveSummaryBtn_display := saveSummaryBtn_display editor |}).

(** What the user can do with the summary editor. *)
Inductive EditorAction : Type :=
| ClickEdit
| ClickSave
| TypeText (text : string).

Definition editorStep (st : Page * Editor) (action : EditorAction) : Page * Editor :=
  match action with
  | ClickEdit => editSummaryClick st
  | ClickSave => saveSummaryClick st
  | TypeText text => typeSummary text st
  end.

(** The two arrangements of the four [style.display] properties: the
    summary shown with the edit button, or the editor shown with the save
    button. *)
Inductive Mode : Type := Viewing | Editing.

Definition modeOf (editor : Editor) : option Mode :=
  if bool_decide (summaryDisplay_display editor = "block" ∧
                  summaryEditor_display editor = "none" ∧
                  editSummaryBtn_display editor = "inline-flex" ∧
                  saveSummaryBtn_display editor = "none") then Some Viewing
  else if bool_decide (summaryDisplay_display editor = "none" ∧
                       summaryEditor_display editor = "block" ∧
                       editSummaryBtn_display editor = "none" ∧
                       saveSummaryBtn_display editor = "inline-flex") then Some Editing
  else None.

(** The mode a click asks for. *)
Definition clickMode (action : EditorAction) : option Mode :=
  match action with
  | ClickEdit => Some Editing
  | ClickSave => Some Viewing
  | TypeText _ => None
  end.

(** *** Summary export *)

(** What one click on [exportSummaryBtn] does outside the page: the object
    given to [JSON.stringify] for the request body, and the file saved. *)
Record ExportEffects : Type := {
  posted : JSData number;
  saved : option Download;
}.

(** The [try] block of the export handler. *)
Definition tryExportSummary (server : ExportResult) (p : Page)
    : Completion (Page * Download) Page :=
  match server with
  | ExportRejected message => Throw (ErrorWith message) p
  | ExportResponse status blob =>
      if negb (response_ok status) then Throw (ErrorWith "Failed to export summary") p
      else match blob with
           | BlobRejected message => Throw (ErrorWith message) p
           | BlobBytes bytes =>
               let download := {| download_bytes := bytes;
                                  download_name := "document_summary.docx" |} in
               Normal (addLog "Summary exported as DOCX successfully" p, download)
           end
  end.

(** The click handler of [exportSummaryBtn]. *)
Definition exportSummaryClick (server : ExportResult) (p : Page) : Page * ExportEffects :=
  let body := JSObject {[ "summary" := currentSummary (summary p) ]} in
  match tryExportSummary server p with
  | Normal (p, download) => (p, {| posted := body; saved := Some download |})
  | Throw e p =>
      (addLog ("Error exporting summary: " +:+ message_of e) p,
       {| posted := body; saved := None |})
  end.

(** *** Drag and drop *)

(** [preventDefaults(e)]: [preventDefault] acts on a cancelable event only. *)
Definition preventDefaults (e : EventFlags) : EventFlags :=
  {| cancelable := cancelable e;
     defaultPrevented := defaultPrevented e || cancelable e;
     propagationStopped := true |}.

(** [highlight(e)] and [unhighlight(e)] on [dropZone.classList]. *)
Definition highlight (classList : gset string) : gset string :=
  classList ∪ {[ "dragover" ]}.

Definition unhighlight (classList : gset string) : gset string :=
  classList ∖ {[ "dragover" ]}.

(** [handleDrop(e)] *)
Definition handleDrop (files : list File) (p : Page) : Page := handleFiles files p.

(** The listeners of [dropZone] for one drag event, in the order they were
    added: [preventDefaults], then [highlight] or [unhighlight], then
    [handleDrop] for a drop.  The state is the page and the class list of
    the drop zone. *)
Definition dropZoneListeners (event : DragEvent) (e : EventFlags)
    (st : Page * gset string) : EventFlags * (Page * gset string) :=
  let '(p, classList) := st in
  let e := preventDefaults e in
  match event with
  | DragEnter | DragOver => (e, (p, highlight classList))
  | DragLeave => (e, (p, unhighlight classList))
  | Drop files => (e, (handleDrop files p, unhighlight classList))
  end.

(** The event object as it is dispatched: every drag event here can be
    cancelled except dragleave. *)
Definition dispatched (event : DragEvent) : EventFlags :=
  {| cancelable := match event with DragLeave => false | _ => true end;
     defaultPrevented := false;
     propagationStopped := false |}.

(** A sequence of drag events at the drop zone. *)
Definition dragAll (events : list DragEvent) (st : Page * gset string)
    : Page * gset string :=
  foldl (λ st event, (dropZoneListeners event (dispatched event) st).2) st events.

(** Whether a drag event leaves the drop zone highlighted. *)
Definition highlights (event : DragEvent) : bool :=
  match event with
  | DragEnter | DragOver => true
  | DragLeave | Drop _ => false
  end.

(** The change handler of [fileInput]. *)
Definition fileInputChange (inputs : Inputs) (p : Page) : Page :=
  handleFiles (fileInput_files inputs) p.

(** *** The download button *)

(** A click on [#downloadBtn]: where the window navigates to, if the button
    is there and has its handler. *)
Definition downloadBtnClick (p : Page) : Page * option (JSValue number) :=
  match downloadBtn p with
  | Some {| onclick_href := Some downloadUrl |} =>
      (addLog "Downloading translated document..." p, Some downloadUrl)
  | _ => (p, None)
  end.

(** *** What a line announces for each display *)

(** The status text a line sets. *)
Definition announcedStatus (update : string) : option string :=
  data ← JSON_parse update;
  v ← prop data "status";
  if ToBoolean v then Some (ToString v) else None.

(** The text a line sets the counter [key] to. *)
Definition announcedCount (key : string) (update : string) : option string :=
  data ← JSON_parse update;
  v ← prop data key;
  Some (match v with JSNull => "" | _ => ToString v end).

(** The status text the lines of a response leave, if one of them sets
    it. *)
Definition lastStatus (server : FetchResult) : option string :=
  match server with
  | FetchRejected _ => None
  | FetchResponse _ body => last (omap announcedStatus (decodedLines (chunks body)))
  end.

(** The message of a submission that fails before the stream is opened. *)
Definition submissionError (server : FetchResult) : option string :=
  match server with
  | FetchRejected message => Some message
  | FetchResponse status _ =>
      if response_ok status then None
      else Some ("Translation failed with status: " +:+ pretty status)
  end.

End OtherHandlers.

(** The characters of a text, in order. *)
Abbreviation chars := String.list_ascii_of_string.

(** [pieces.join(sep)] for a one-character separator. *)
Fixpoint join (sep : ascii) (pieces : list string) : string :=
  match pieces with
  | [] => EmptyString
  | [piece] => piece
  | piece :: rest => piece +:+ String sep (join sep rest)
  end.

(** ** More sample lines *)

Module Lines.

(** A record with a [summary] only. *)
Definition summaryOnly : string := Sample.object1 "summary" "ok".
(** A record with an empty [status] and an empty [message]. *)
Definition emptyStatus : string := Sample.object2 "status" "" "message" "".
(** A record with the number 3 as [apiCalls]. *)
Definition counted : string :=
  "{" +:+ Sample.quote +:+ "apiCalls" +:+ Sample.quote +:+ ":3}".
(** A line holding the number 5, and a line holding [null]. *)
Definition five : string := "5".
Definition null : string := "null".

Definition parse (text : string) : option (JSData Z) :=
  if decide (text = counted) then Some (JSObject {[ "apiCalls" := JSNumber 3%Z ]})
  else if decide (text = summaryOnly) then Some (JSObject {[ "summary" := JSString "ok" ]})
  else if decide (text = emptyStatus)
       then Some (JSObject {[ "status" := JSString ""; "message" := JSString "" ]})
  else if decide (text = five) then Some (JSPrim (JSNumber 5%Z))
  else if decide (text = null) then Some (JSPrim JSNull)
  else Sample.parse text.

(** The sample host, with [JSON.parse] knowing these lines too. *)
Definition host : Host :=
  {| number := Z;
     Number_toString := pretty;
     Number_truthy := λ n, bool_decide (n ≠ 0%Z);
     JSON_parse := parse;
     TextDecoder_decode := String.string_of_list_byte;
     toLocaleTimeString := pretty;
     engineMessage := engineMessage (Host := Sample.host) |}.

(** The page as loaded, at this host. *)
Definition page : Page (H:=host) :=
  {| fileName_textContent := "";
     translateBtn_disabled := true;
     progressSection_display := "none";
     progressBar_width := "0%";
     status_textContent := "";
     apiCalls_textContent := "0";
     cached_textContent := "0";
     logContainer := [];
     clockReads := 0;
     summary := {| summarySection_display := "none";
                   summaryDisplay_textContent := "";
                   editSummaryBtn_disabled := true;
                   exportSummaryBtn_disabled := true;
                   currentSummary := JSString "" |};
     downloadBtn := None;
     requests := [] |}.

(** The editor as loaded: the summary is shown, not edited. *)
Definition editor : Editor :=
  {| summaryEditor_value := "";
     summaryEditor_display := "none";
     summaryDisplay_display := "block";
     editSummaryBtn_display := "inline-flex";
     saveSummaryBtn_display := "none" |}.

Definition chosen : Inputs :=
  {| fileInput_files := [Sample.exampleFile];
     targetLang_value := "fr";
     engine_value := "default";
     generateSummary_checked := true;
     toneSelect_value := "neutral";
     pdfEngine_value := "default" |}.

End Lines.

(** * Properties *)

(** ** Strings *)

Section StringFacts.



Lemma split_not_nil (sep : ascii) (s : string) : Str.split sep s ≠ [].
Proof.
  destruct s as [|c s]; simpl; [done |].
  case_decide; [done |]. by destruct (Str.split sep s).
Qed.


Lemma endsWith_inv (s suffix : string) :
  Str.endsWith s suffix = true → ∃ front, s = front +:+ suffix.
Proof.
  induction s as [|c s IH]; simpl; intros Hends.
  - apply orb_prop in Hends as [Heq | ?]; [| done].
    apply bool_decide_eq_true in Heq. by exists "".
  - apply orb_prop in Hends as [Heq | Hrest].
    + apply bool_decide_eq_true in Heq. by exists "".
    + destruct (IH Hrest) as [front ->]. by exists (String c front).
Qed.

End StringFacts.

(** ** The chunk decoder *)

Section Decoder.

Context `{Host}.




(** The loop calls the callback on the decoded lines, in their order. *)
Lemma foldl_processChunk (chunks : list (list byte)) (st : Page * Run) :
  foldl processChunk st chunks = foldl processUpdate st (decodedLines chunks).
Proof.
  revert st. induction chunks as [|value chunks IH]; intros st; [done |].
  unfold decodedLines. rewrite bind_cons, foldl_app. apply IH.
Qed.

End Decoder.

(** ** The state synchronizer *)

Section Synchronizer.

Context `{Host}.

Lemma addLog_logContainer (message : string) (p : Page) :
  logContainer (addLog message p) = logContainer p ++ [logEntry p message].
Proof. reflexivity. Qed.

Lemma null_or_not (data : JSData number) :
  data = JSPrim JSNull ∨ data ≠ JSPrim JSNull.
Proof. destruct data as [[]| |]; auto. Qed.

(** [handleProgressUpdate] throws on [null] only, and assigns only to the
    progress bar, the status, the two counters and the log. *)
Lemma handleProgressUpdate_normal (data : JSData number) (p : Page) :
  data ≠ JSPrim JSNull →
  ∃ p', handleProgressUpdate data p = Normal p' ∧
        summary p' = summary p ∧ downloadBtn p' = downloadBtn p ∧
        translateBtn_disabled p' = translateBtn_disabled p ∧
        fileName_textContent p' = fileName_textContent p ∧
        requests p' = requests p.
Proof.
  intros Hdata. unfold handleProgressUpdate.
  destruct data as [[]| |]; try done; eexists; (split; [reflexivity |]);
    repeat case_match; done.
Qed.

(** What one callback leaves in [finalDownloadUrl] and
    [translationComplete]. *)
Lemma processUpdate_url (st : Page * Run) (update : string) :
  match announcedUrl update with
  | Some url =>
      finalDownloadUrl (processUpdate st update).2 = url ∧
      translationComplete (processUpdate st update).2 = true ∧
      ToBoolean url = true
  | None =>
      finalDownloadUrl (processUpdate st update).2 = finalDownloadUrl st.2 ∧
      translationComplete (processUpdate st update).2 = translationComplete st.2
  end.
Proof.
  destruct st as [p r]. unfold processUpdate, tryUpdate, announcedUrl, truthyProp.
  destruct (JSON_parse update) as [data|]; simpl; [| done].
  destruct (null_or_not data) as [-> | Hdata]; [done |].
  destruct (handleProgressUpdate_normal data p Hdata) as (p' & -> & _).
  destruct (prop data "downloadUrl") as [url|]; simpl.
  - destruct (ToBoolean url) eqn:Hurl; simpl; [done |].
    by destruct (from_option ToBoolean false (prop data "summary")).
  - by destruct (from_option ToBoolean false (prop data "summary")).
Qed.

(** The callback never touches the download button. *)
Lemma processUpdate_downloadBtn (st : Page * Run) (update : string) :
  downloadBtn (processUpdate st update).1 = downloadBtn st.1.
Proof.
  destruct st as [p r]. unfold processUpdate, tryUpdate.
  destruct (JSON_parse update) as [data|]; simpl; [| done].
  destruct (null_or_not data) as [-> | Hdata]; [done |].
  destruct (handleProgressUpdate_normal data p Hdata) as (p' & -> & _ & Hbtn & _).
  destruct (truthyProp data "downloadUrl"); [done |].
  by destruct (truthyProp data "summary").
Qed.

Lemma foldl_processUpdate_downloadBtn (lines : list string) (st : Page * Run) :
  downloadBtn (foldl processUpdate st lines).1 = downloadBtn st.1.
Proof.
  revert st. induction lines as [|update lines IH]; intros st; [done |].
  cbn [foldl]. by rewrite IH, processUpdate_downloadBtn.
Qed.

Lemma foldl_processUpdate_url (lines : list string) (st : Page * Run) :
  match last (omap announcedUrl lines) with
  | Some url =>
      finalDownloadUrl (foldl processUpdate st lines).2 = url ∧
      translationComplete (foldl processUpdate st lines).2 = true ∧
      ToBoolean url = true
  | None =>
      finalDownloadUrl (foldl processUpdate st lines).2 = finalDownloadUrl st.2 ∧
      translationComplete (foldl processUpdate st lines).2 = translationComplete st.2
  end.
Proof.
  revert st. induction lines as [|update lines IH]; intros st; [done |].
  specialize (IH (processUpdate st update)).
  pose proof (processUpdate_url st update) as Hone.
  cbn [foldl].
  change (omap announcedUrl (update :: lines))
    with (match announcedUrl update with
          | Some url => url :: omap announcedUrl lines
          | None => omap announcedUrl lines
          end).
  destruct (announcedUrl update) as [url|]; [rewrite last_cons |];
    destruct (last (omap announcedUrl lines)); try done;
    by destruct IH as [-> ->].
Qed.

End Synchronizer.

(** ** File selection *)

Section Selection.

Lemma lowerChar_dot (c : ascii) : Str.lowerChar c = "."%char ↔ c = "."%char.
Proof.
  destruct c as [[] [] [] [] [] [] [] []]; vm_compute; split; congruence.
Qed.

Lemma suffix_toLowerCase (fileName : string) :
  Spec.suffix (Str.toLowerCase fileName) = Str.toLowerCase <$> Spec.suffix fileName.
Proof.
  induction fileName as [|c rest IH]; simpl; [done |].
  rewrite IH. destruct (Spec.suffix rest); simpl; [done |].
  destruct (decide (c = "."%char)) as [-> | Hc].
  - by rewrite decide_True.
  - rewrite decide_False; [done |]. by rewrite lowerChar_dot.
Qed.

(** Ending with a full stop and an extension that has no full stop is
    having that extension as suffix. *)
Lemma endsWith_suffix (fileName extension : string) :
  Spec.suffix extension = None →
  Str.endsWith fileName (String "."%char extension) = true ↔
  Spec.suffix fileName = Some extension.
Proof.
  intros Hext. induction fileName as [|c rest IH]; simpl; [done |].
  rewrite orb_true_iff, bool_decide_eq_true, IH. split.
  - intros [[= -> ->] | ->]; [| done]. by rewrite Hext, decide_True.
  - destruct (Spec.suffix rest); [intros [= ->]; by right |].
    case_decide; [| done]. intros [= ->]. left. by subst.
Qed.

Lemma acceptsName_spec (fileName : string) :
  acceptsName fileName = true ↔ Spec.accepts fileName.
Proof.
  unfold acceptsName, Spec.accepts.
  rewrite orb_true_iff, !endsWith_suffix by reflexivity.
  rewrite suffix_toLowerCase.
  destruct (Spec.suffix fileName) as [s|]; simpl.
  2: { split; [intros [[=] | [=]] | intros (? & [=] & _)]. }
  split.
  - intros [[= Hs] | [= Hs]]; exists s; auto.
  - intros (? & [= <-] & [-> | ->]); auto.
Qed.

End Selection.

(** * The claims *)

Section Claims.

Context `{Host}.


(** C2, as the code has it.  After any sequence of chunks the recorded
    download URL is the one announced by the last line that announces
    one: every such line overwrites [finalDownloadUrl]. *)
Theorem C2_last_download_url_wins (chunks : list (list byte)) (p : Page) :
  finalDownloadUrl (foldl processChunk (p, newRun) chunks).2 =
    default JSNull (last (omap announcedUrl (decodedLines chunks))).
Proof.
  rewrite foldl_processChunk.
  pose proof (foldl_processUpdate_url (decodedLines chunks) (p, newRun)) as Hurl.
  destruct (last (omap announcedUrl (decodedLines chunks))); simpl; apply Hurl.
Qed.

(** C4.  Whatever the server answers (a rejected fetch, a response that
    is not a success, a stream that ends with or without a download URL,
    a read that is rejected), a run leaves the translate button enabled. *)
Theorem C4_translate_button_reenabled
    (file : File) (inputs : Inputs) (server : FetchResult) (p : Page) :
  translateBtn_disabled (translateRun file inputs server p).1 = false.
Proof.
  unfold translateRun.
  destruct (tryTranslate _ server _) as [[p' outcome] | e p']; reflexivity.
Qed.

(** C5.  A line that [JSON.parse] rejects adds one entry to the log, the
    line itself after the words Non-JSON update; the progress bar, the
    status, the counters, the summary, the download button and the run's
    variables stay as they were, and the lines after it are processed
    from that state.  The run is not aborted: when the line is one of the
    lines of a stream, reached in state [(p, r)], the loop goes on through
    the lines after it to the end of the stream, and the run that reads
    that stream does not end as failed. *)
Theorem C5_malformed_line_logged_once
    (update : string) (rest : list string) (p : Page) (r : Run) :
  JSON_parse update = None →
  let st := processUpdate (p, r) update in
  logContainer st.1 = logContainer p ++ [logEntry p ("Non-JSON update: " +:+ update)] ∧
  progressBar_width st.1 = progressBar_width p ∧
  status_textContent st.1 = status_textContent p ∧
  apiCalls_textContent st.1 = apiCalls_textContent p ∧
  cached_textContent st.1 = cached_textContent p ∧
  summary st.1 = summary p ∧
  downloadBtn st.1 = downloadBtn p ∧
  st.2 = r ∧
  foldl processUpdate (p, r) (update :: rest) = foldl processUpdate st rest ∧
  ∀ (chunks : list (list byte)) (before : list string) (start : Page * Run),
    decodedLines chunks = before ++ update :: rest →
    foldl processUpdate start before = (p, r) →
    foldl processChunk start chunks = foldl processUpdate st rest ∧
    readLoop {| chunks := chunks; ending := StreamDone |} start =
      Normal (addLog "Stream complete" (foldl processUpdate st rest).1,
              (foldl processUpdate st rest).2) ∧
    ∀ (file : File) (inputs : Inputs) (status : nat) (p0 : Page),
      response_ok status = true →
      (translateRun file inputs
         (FetchResponse status {| chunks := chunks; ending := StreamDone |}) p0).2
      ≠ Failed.
Proof.
  intros Hparse.
  assert (processUpdate (p, r) update =
            (addLog ("Non-JSON update: " +:+ update) p, r)) as Hone.
  { unfold processUpdate, tryUpdate. by rewrite Hparse. }
  cbv zeta. rewrite Hone. simpl.
  do 8 (split; [reflexivity |]). split; [by rewrite Hone |].
  intros chunks before start Hlines Hreached.
  assert (foldl processChunk start chunks =
            foldl processUpdate (addLog ("Non-JSON update: " +:+ update) p, r) rest)
    as Hloop.
  { rewrite foldl_processChunk, Hlines, foldl_app, Hreached. simpl. by rewrite Hone. }
  split; [exact Hloop |]. split.
  - unfold readLoop. simpl. rewrite Hloop. by destruct (foldl processUpdate _ rest).
  - intros file inputs status p0 Hok. clear Hloop.
    unfold translateRun, tryTranslate, readLoop. rewrite Hok. simpl.
    destruct (foldl processChunk _ chunks) as [p' r']. unfold afterStream.
    by destruct (translationComplete r' && ToBoolean (finalDownloadUrl r')).
Qed.

(** C6.  The test of [handleFiles] accepts a name exactly when its
    suffix, lower-cased, is docx or pdf.  An accepted name is shown, the
    translate button is enabled and the selection is logged; a rejected
    one leaves the fixed request for a DOCX or PDF file instead of the
    name, disables the button and logs the reason.  Report.PDF is
    accepted and report.txt is rejected. *)
Theorem C6_file_selection (file : File) (others : list File) (p : Page) :
  (acceptsName (name file) = true ↔ Spec.accepts (name file)) ∧
  (if acceptsName (name file) then
     fileName_textContent (handleFiles (file :: others) p) = name file ∧
     translateBtn_disabled (handleFiles (file :: others) p) = false ∧
     logContainer (handleFiles (file :: others) p) =
       logContainer p ++ [logEntry p ("File selected: " +:+ name file)]
   else
     fileName_textContent (handleFiles (file :: others) p) =
       "Please select a DOCX or PDF file" ∧
     translateBtn_disabled (handleFiles (file :: others) p) = true ∧
     logContainer (handleFiles (file :: others) p) =
       logContainer p ++
       [logEntry p "Error: Invalid file type. Please select a DOCX or PDF file."]) ∧
  acceptsName "Report.PDF" = true ∧ acceptsName "report.txt" = false.
Proof.
  split; [apply acceptsName_spec |]. split; [| by vm_compute].
  simpl. by destruct (acceptsName (name file)).
Qed.

(** C7.  A run is [Completed] exactly when the submission succeeded, the
    stream was read to its end and a download URL was recorded from it;
    then the status reads Translation completed, the progress bar is at
    100% and the download button navigates to the recorded URL.  In every
    other run the download button is left as it was. *)
Theorem C7_completed_iff_download_url
    (file : File) (inputs : Inputs) (server : FetchResult) (p : Page) :
  ((translateRun file inputs server p).2 = Completed ↔
   is_Some (terminalDownloadUrl server)) ∧
  match terminalDownloadUrl server with
  | Some url =>
      status_textContent (translateRun file inputs server p).1 = "Translation completed" ∧
      progressBar_width (translateRun file inputs server p).1 = "100%" ∧
      downloadBtn (translateRun file inputs server p).1 =
        Some {| onclick_href := Some url |}
  | None => downloadBtn (translateRun file inputs server p).1 = downloadBtn p
  end.
Proof.
  unfold translateRun, tryTranslate, terminalDownloadUrl.
  destruct server as [message | status body].
  { split; [split; [done | by intros []] | done]. }
  destruct (response_ok status); simpl.
  2: { split; [split; [done | by intros []] | done]. }
  unfold readLoop. rewrite foldl_processChunk.
  match goal with |- context [foldl processUpdate ?st _] =>
    pose proof (foldl_processUpdate_url (decodedLines (chunks body)) st) as Hurl;
    pose proof (foldl_processUpdate_downloadBtn (decodedLines (chunks body)) st) as Hbtn
  end.
  destruct (foldl processUpdate _ _) as [p' r'].
  destruct (ending body); simpl.
  - destruct (last (omap announcedUrl (decodedLines (chunks body)))) as [url|];
      simpl in Hurl.
    + destruct Hurl as (-> & -> & ->). by split.
    + destruct Hurl as (-> & ->). simpl. split; [split; [done | by intros []] |].
      simpl in Hbtn. by case_bool_decide.
  - split; [split; [done | by intros []] |]. done.
Qed.

(** C8.  On a line that parses to an object with a truthy [downloadUrl],
    the [try] block records the URL, sets [translationComplete] and then
    throws a ReferenceError; the [catch] clause appends one entry that
    reports the line as a non-JSON update, and the summary of the page is
    left as it was, whatever [summary] the record carries. *)
Theorem C8_download_url_line_is_caught
    (update : string) (fields : gmap string (JSValue number)) (url : JSValue number)
    (p : Page) (r : Run) :
  JSON_parse update = Some (JSObject fields) →
  fields !! "downloadUrl" = Some url →
  ToBoolean url = true →
  ∃ p1 : Page,
    handleProgressUpdate (JSObject fields) p = Normal p1 ∧
    tryUpdate update (p, r) =
      Throw ReferenceError
        (p1, {| translationComplete := true;
                summaryGenerated := summaryGenerated r;
                finalDownloadUrl := url |}) ∧
    processUpdate (p, r) update =
      (addLog ("Non-JSON update: " +:+ update) p1,
       {| translationComplete := true;
          summaryGenerated := summaryGenerated r;
          finalDownloadUrl := url |}) ∧
    logContainer (processUpdate (p, r) update).1 =
      logContainer p1 ++ [logEntry p1 ("Non-JSON update: " +:+ update)] ∧
    summary (processUpdate (p, r) update).1 = summary p.
Proof.
  intros Hparse Hfield Hurl.
  destruct (handleProgressUpdate_normal (JSObject fields) p) as (p1 & Hp1 & Hsum & _);
    [done |].
  exists p1. split; [done |].
  assert (tryUpdate update (p, r) =
      Throw ReferenceError
        (p1, {| translationComplete := true;
                summaryGenerated := summaryGenerated r;
                finalDownloadUrl := url |})) as Htry.
  { unfold tryUpdate, truthyProp. rewrite Hparse, Hp1. simpl.
    by rewrite Hfield; simpl; rewrite Hurl. }
  unfold processUpdate. rewrite Htry. simpl. by rewrite Hsum.
Qed.

(** C9.  When the cache-clear request fails, the two counters keep their
    text and one entry starting with Error clearing cache is appended to
    the log; when it succeeds, both counters read 0. *)
Theorem C9_cache_counters_kept_on_failure (server : CacheResult) (p : Page) :
  if cacheFailed server then
    apiCalls_textContent (clearCacheClick server p) = apiCalls_textContent p ∧
    cached_textContent (clearCacheClick server p) = cached_textContent p ∧
    ∃ message : string,
      logContainer (clearCacheClick server p) =
        logContainer p ++ [logEntry p ("Error clearing cache: " +:+ message)]
  else
    apiCalls_textContent (clearCacheClick server p) = "0" ∧
    cached_textContent (clearCacheClick server p) = "0".
Proof.
  unfold clearCacheClick, tryClearCache, cacheFailed.
  destruct server as [message | status json]; simpl; [by eauto |].
  destruct (response_ok status); simpl; [| by eauto].
  destruct json as [message | data]; simpl; [by eauto |].
  by destruct data as [[]| |].
Qed.

(** C10.  With no file in the file input, the click handler returns at
    once: the page, its log and its list of sent requests included, is
    unchanged and no run takes place. *)
Theorem C10_no_file_no_effect (inputs : Inputs) (server : FetchResult) (p : Page) :
  fileInput_files inputs = [] →
  translateClick inputs server p = (p, None).
Proof. intros Hfiles. unfold translateClick. by rewrite Hfiles. Qed.

End Claims.

(** * The claims at the sample host *)

Section SampleRuns.

#[local] Existing Instance Sample.host.



(** C2 fails as stated.  Of two lines that announce /a and then /b, the
    run records /b, not the first value. *)
Lemma C2_second_url_replaces_first :
  let chunks := [Sample.bytes (Sample.urlA +:+ Str.newline +:+ Sample.urlB)] in
  omap announcedUrl (decodedLines chunks) = [JSString "/a"; JSString "/b"] ∧
  finalDownloadUrl (foldl processChunk (Sample.page, newRun) chunks).2 = JSString "/b" ∧
  finalDownloadUrl (foldl processChunk (Sample.page, newRun) chunks).2 ≠ JSString "/a".
Proof. cbv zeta. repeat split; vm_compute; (reflexivity || discriminate). Qed.

(** C3 at the record that carries both [summary] and [downloadUrl].  The
    URL is recorded, the line is logged as a non-JSON update, and the
    summary is not applied: the displayed summary stays empty and
    [summaryGenerated] stays false.  So the example run of the
    specification completes, with the progress bar at 100% and the download
    button bound to /x, but with the summary panel as it was loaded. *)
Lemma C3_summary_dropped_with_download_url :
  JSON_parse Sample.summaryAndUrl =
    Some (JSObject {[ "summary" := JSString "ok"; "downloadUrl" := JSString "/x" ]}) ∧
  processUpdate (Sample.page, newRun) Sample.summaryAndUrl =
    (addLog ("Non-JSON update: " +:+ Sample.summaryAndUrl) Sample.page,
     {| translationComplete := true;
        summaryGenerated := false;
        finalDownloadUrl := JSString "/x" |}) ∧
  summaryDisplay_textContent
    (summary (processUpdate (Sample.page, newRun) Sample.summaryAndUrl).1) = "" ∧
  let run := translateRun Sample.exampleFile Sample.noInputs Sample.exampleStream
               Sample.page in
  run.2 = Completed ∧
  progressBar_width run.1 = "100%" ∧
  downloadBtn run.1 = Some {| onclick_href := Some (JSString "/x") |} ∧
  summary run.1 = summary Sample.page.
Proof. cbv zeta. repeat split; vm_compute; reflexivity. Qed.

(** The four ways a run can end, each with the button enabled again: a
    stream with a download URL, a stream without one, a submission answered
    with status 500, and a read that is rejected. *)
Lemma four_exit_paths :
  let run server :=
    translateRun Sample.exampleFile Sample.noInputs server Sample.page in
  let outcome server := ((run server).2, translateBtn_disabled (run server).1,
                         status_textContent (run server).1) in
  outcome Sample.exampleStream = (Completed, false, "Translation completed") ∧
  outcome (FetchResponse 200 {| chunks := [Sample.bytes Sample.progressAndMessage];
                                ending := StreamDone |})
    = (Incomplete, false, "Translation incomplete or failed") ∧
  outcome (FetchResponse 500 {| chunks := []; ending := StreamDone |})
    = (Failed, false, "Error") ∧
  outcome (FetchResponse 200 {| chunks := [Sample.bytes Sample.progressAndMessage];
                                ending := StreamError "network error" |})
    = (Failed, false, "Error").
Proof. cbv zeta. repeat split; vm_compute; reflexivity. Qed.

(** C5 at the malformed sample line, followed in its chunk by a line that
    announces /a: the line is logged, and the URL of the line after it is
    recorded. *)
Lemma C5_malformed_line_logged_once_witness :
  let chunks := [Sample.bytes (Sample.malformed +:+ Str.newline +:+ Sample.urlA
                               +:+ Str.newline)] in
  JSON_parse Sample.malformed = None ∧
  decodedLines chunks = [] ++ Sample.malformed :: [Sample.urlA] ∧
  foldl processUpdate (Sample.page, newRun) [] = (Sample.page, newRun) ∧
  response_ok 200 = true ∧
  logContainer (processUpdate (Sample.page, newRun) Sample.malformed).1 =
    ["[0] Non-JSON update: " +:+ Sample.malformed] ∧
  (processUpdate (Sample.page, newRun) Sample.malformed).2 = newRun ∧
  finalDownloadUrl (foldl processChunk (Sample.page, newRun) chunks).2 = JSString "/a" ∧
  (translateRun Sample.exampleFile Sample.noInputs
     (FetchResponse 200 {| chunks := chunks; ending := StreamDone |}) Sample.page).2
  ≠ Failed.
Proof.
  cbv zeta.
  assert (JSON_parse Sample.malformed = None) as Hparse by reflexivity.
  assert (decodedLines
            [Sample.bytes (Sample.malformed +:+ Str.newline +:+ Sample.urlA
                           +:+ Str.newline)] =
          [] ++ Sample.malformed :: [Sample.urlA]) as Hlines by reflexivity.
  destruct (C5_malformed_line_logged_once Sample.malformed [Sample.urlA] Sample.page
              newRun Hparse)
    as (Hlog & _ & _ & _ & _ & _ & _ & Hrun & _ & Hstream).
  destruct (Hstream _ [] (Sample.page, newRun) Hlines eq_refl) as (Hloop & _ & Hnot).
  split; [exact Hparse |]. split; [exact Hlines |].
  split; [reflexivity |]. split; [reflexivity |].
  split; [exact Hlog |]. split; [exact Hrun |].
  split; [rewrite Hloop; reflexivity |].
  exact (Hnot Sample.exampleFile Sample.noInputs 200 Sample.page eq_refl).
Defined.

(** C8 at the record that carries both [summary] and [downloadUrl]. *)
Lemma C8_download_url_line_is_caught_witness :
  JSON_parse Sample.summaryAndUrl =
    Some (JSObject {[ "summary" := JSString "ok"; "downloadUrl" := JSString "/x" ]}) ∧
  ({[ "summary" := JSString "ok"; "downloadUrl" := JSString "/x" ]}
     : gmap string (JSValue number)) !! "downloadUrl" = Some (JSString "/x") ∧
  ToBoolean (JSString "/x") = true ∧
  summary (processUpdate (Sample.page, newRun) Sample.summaryAndUrl).1 = summary Sample.page.
Proof.
  assert (JSON_parse Sample.summaryAndUrl =
    Some (JSObject {[ "summary" := JSString "ok"; "downloadUrl" := JSString "/x" ]}))
    as Hparse by reflexivity.
  assert (({[ "summary" := JSString "ok"; "downloadUrl" := JSString "/x" ]}
     : gmap string (JSValue number)) !! "downloadUrl" = Some (JSString "/x"))
    as Hfield by reflexivity.
  assert (ToBoolean (JSString "/x") = true) as Hurl by reflexivity.
  repeat (split; [assumption |]).
  destruct (C8_download_url_line_is_caught _ _ _ Sample.page newRun Hparse Hfield Hurl)
    as (p1 & _ & _ & _ & _ & Hsummary).
  exact Hsummary.
Defined.

(** C10 at the page as loaded, with an empty file input. *)
Lemma C10_no_file_no_effect_witness :
  fileInput_files Sample.noInputs = [] ∧
  translateClick Sample.noInputs (FetchRejected "offline") Sample.page = (Sample.page, None).
Proof.
  split; [reflexivity |].
  apply (C10_no_file_no_effect Sample.noInputs (FetchRejected "offline") Sample.page).
  reflexivity.
Defined.

End SampleRuns.

(** * Further properties *)

(** ** The string methods *)

Section StringMethods.

Lemma chars_app (a b : string) : chars (a +:+ b) = chars a ++ chars b.
Proof. induction a as [|c a IH]; simpl; [done | by rewrite IH]. Qed.

Lemma split_cons_char (sep c : ascii) (s : string) :
  c ≠ sep →
  ∃ piece pieces, Str.split sep s = piece :: pieces ∧
                  Str.split sep (String c s) = String c piece :: pieces.
Proof.
  intros Hc. simpl. rewrite decide_False by done.
  pose proof (split_not_nil sep s) as Hne.
  destruct (Str.split sep s) as [|piece pieces]; [done |]. eauto.
Qed.

(** No piece of a split contains the separator. *)
Lemma split_free (sep : ascii) (s : string) :
  Forall (λ piece, sep ∉ chars piece) (Str.split sep s).
Proof.
  induction s as [|c s IH].
  - repeat constructor. simpl. apply not_elem_of_nil.
  - destruct (decide (c = sep)) as [-> | Hc].
    + simpl. rewrite decide_True by done.
      constructor; [simpl; apply not_elem_of_nil | done].
    + destruct (split_cons_char sep c s Hc) as (piece & pieces & Hs & ->).
      rewrite Hs in IH. apply Forall_cons in IH as [Hpiece Hpieces].
      constructor; [| done]. simpl. by apply not_elem_of_cons.
Qed.

Lemma trimStart_spec (s : string) :
  ∃ before, s = before +:+ Str.trimStart s ∧
            Forall (λ c, Str.isWhiteSpace c = true) (chars before) ∧
            ∀ c rest, Str.trimStart s = String c rest → Str.isWhiteSpace c = false.
Proof.
  induction s as [|c s (before & Hs & Hws & Hhead)]; simpl.
  - exists "". by repeat split.
  - destruct (Str.isWhiteSpace c) eqn:Hc.
    + exists (String c before). simpl. rewrite <- Hs. repeat split; [| done].
      by constructor.
    + exists "". repeat split; [constructor |]. by intros ? ? [= <- _].
Qed.

Lemma trimEnd_spec (s : string) :
  ∃ after, s = Str.trimEnd s +:+ after ∧
           Forall (λ c, Str.isWhiteSpace c = true) (chars after) ∧
           (∀ front c, Str.trimEnd s = front +:+ String c "" → Str.isWhiteSpace c = false) ∧
           (∀ c rest, s = String c rest → Str.isWhiteSpace c = false →
                      ∃ rest', Str.trimEnd s = String c rest').
Proof.
  induction s as [|c s (after & Hs & Hws & Hlast & _)]; simpl.
  - exists "". repeat split; [constructor | | done].
    intros [|] ? ?; discriminate.
  - destruct (Str.trimEnd s) as [|d t] eqn:Ht.
    + simpl in Hs. subst after. destruct (Str.isWhiteSpace c) eqn:Hc.
      * exists (String c s). repeat split.
        -- by constructor.
        -- intros [|] ? ?; discriminate.
        -- intros ? ? [= <- _] ?. congruence.
      * exists s. repeat split; [done | |].
        -- intros [|? [|]] ? [=]; congruence.
        -- intros ? ? [= <- _] _. eauto.
    + exists after. repeat split; [simpl; by rewrite Hs at 1 | done | |].
      * intros [|e front] e' Heq; [discriminate |].
        simpl in Heq. injection Heq as _ Heq. eauto.
      * intros ? ? [= <- _] _. eauto.
Qed.

(** The text around the trimmed text is white space, and the trimmed text
    does not begin with white space. *)
Lemma trim_parts (s : string) :
  ∃ before after,
    s = before +:+ Str.trim s +:+ after ∧
    Forall (λ c, Str.isWhiteSpace c = true) (chars before) ∧
    Forall (λ c, Str.isWhiteSpace c = true) (chars after) ∧
    (∀ c rest, Str.trim s = String c rest → Str.isWhiteSpace c = false).
Proof.
  unfold Str.trim.
  destruct (trimStart_spec s) as (before & Hs & Hbefore & Hhead).
  destruct (trimEnd_spec (Str.trimStart s)) as (after & Ht & Hafter & _ & Hkeep).
  exists before, after. repeat split; try done.
  - by rewrite <- Ht.
  - intros c rest Htrim. destruct (Str.trimStart s) as [|d t] eqn:Hstart; [done |].
    destruct (Hkeep d t eq_refl (Hhead d t eq_refl)) as [rest' Heq].
    rewrite Heq in Htrim. injection Htrim as <- _. by apply (Hhead d t).
Qed.

(** A line passes the filter when one of its characters is not white
    space. *)
Lemma trim_truthy (s : string) :
  Str.truthy (Str.trim s) = true ↔ ∃ c, c ∈ chars s ∧ Str.isWhiteSpace c = false.
Proof.
  destruct (trim_parts s) as (before & after & Hs & Hbefore & Hafter & Hhead).
  split.
  - destruct (Str.trim s) as [|c rest] eqn:Htrim; [done |]. intros _.
    exists c. split; [| by apply (Hhead c rest)].
    rewrite Hs, !chars_app, !elem_of_app. right. left. simpl. apply elem_of_cons. by left.
  - intros (c & Hin & Hc). destruct (Str.trim s) as [|d rest]; [| done].
    rewrite Hs, !chars_app, !elem_of_app in Hin.
    rewrite Forall_forall in Hbefore. rewrite Forall_forall in Hafter.
    destruct Hin as [Hin | [Hin | Hin]].
    + specialize (Hbefore c Hin). congruence.
    + by apply elem_of_nil in Hin.
    + specialize (Hafter c Hin). congruence.
Qed.

(** X1.  [split] loses nothing: its pieces joined by the separator are the
    text again, and no piece contains the separator. *)
Theorem X1_split_join (sep : ascii) (s : string) :
  join sep (Str.split sep s) = s ∧
  Forall (λ piece, sep ∉ chars piece) (Str.split sep s).
Proof.
  split; [| apply split_free]. induction s as [|c s IH]; [done |].
  destruct (decide (c = sep)) as [-> | Hc].
  - simpl. rewrite decide_True by done.
    pose proof (split_not_nil sep s) as Hne.
    destruct (Str.split sep s) as [|piece pieces] eqn:Hs; [done |].
    change (join sep ("" :: piece :: pieces))
      with ("" +:+ String sep (join sep (piece :: pieces))).
    by rewrite IH.
  - destruct (split_cons_char sep c s Hc) as (piece & pieces & Hs & ->).
    rewrite Hs in IH. destruct pieces as [|next pieces]; simpl in *; by rewrite IH.
Qed.

(** X2.  [trim] removes white space at both ends and nothing else: the
    text is white space, then the trimmed text, then white space, and the
    trimmed text neither begins nor ends with a white-space character. *)
Theorem X2_trim_spec (s : string) :
  ∃ before after,
    s = before +:+ Str.trim s +:+ after ∧
    Forall (λ c, Str.isWhiteSpace c = true) (chars before) ∧
    Forall (λ c, Str.isWhiteSpace c = true) (chars after) ∧
    (∀ c rest, Str.trim s = String c rest → Str.isWhiteSpace c = false) ∧
    (∀ front c, Str.trim s = front +:+ String c "" → Str.isWhiteSpace c = false).
Proof.
  destruct (trim_parts s) as (before & after & Hs & Hbefore & Hafter & Hhead).
  exists before, after. repeat split; try done.
  unfold Str.trim.
  destruct (trimEnd_spec (Str.trimStart s)) as (_ & _ & _ & Hlast & _).
  exact Hlast.
Qed.

(** X3.  [endsWith] holds exactly when the text is some text followed by
    the suffix. *)
Theorem X3_endsWith_spec (s suffix : string) :
  Str.endsWith s suffix = true ↔ ∃ front, s = front +:+ suffix.
Proof.
  split; [apply endsWith_inv |]. intros [front ->].
  induction front as [|c front IH]; simpl.
  - destruct suffix; simpl; [done |]. by rewrite bool_decide_eq_true_2.
  - by rewrite IH, orb_true_r.
Qed.

End StringMethods.

(** ** The lines of a stream *)

Section Lines.

Context `{Host}.

Lemma updatesOf_elem (text line : string) :
  line ∈ updatesOf text ↔
  line ∈ Str.split Str.LF text ∧ ∃ c, c ∈ chars line ∧ Str.isWhiteSpace c = false.
Proof.
  unfold updatesOf. rewrite list_elem_of_filter, <- trim_truthy.
  rewrite Is_true_true. tauto.
Qed.

(** X4.  The callback is never given a blank line or a line with a line
    feed in it: every line taken from a stream has a character that is not
    white space, and none has a line feed. *)
Theorem X4_decodedLines_never_blank (chunks : list (list byte)) :
  Forall (λ line, (Str.LF ∉ chars line) ∧
                  ∃ c, c ∈ chars line ∧ Str.isWhiteSpace c = false)
         (decodedLines chunks).
Proof.
  apply Forall_forall. intros line Hline. unfold decodedLines in Hline.
  apply list_elem_of_bind in Hline as (value & Hline & _).
  apply updatesOf_elem in Hline as [Hpiece Hchar]. split; [| done].
  pose proof (split_free Str.LF (TextDecoder_decode value)) as Hfree.
  rewrite Forall_forall in Hfree. by apply Hfree.
Qed.

End Lines.

(** ** One line at a time *)

Section Updates.

Context `{Host}.

(** [handleProgressUpdate] on anything but [null]: its five tests in
    order. *)
Lemma handleProgressUpdate_shape (data : JSData number) (p : Page) :
  data ≠ JSPrim JSNull →
  handleProgressUpdate data p = Normal
    ((λ p, if truthyProp data "message" then addLog (propString data "message") p else p)
    ((λ p, if bool_decide (is_Some (prop data "cached"))
           then set_cached_textContent (propText data "cached") p else p)
    ((λ p, if bool_decide (is_Some (prop data "apiCalls"))
           then set_apiCalls_textContent (propText data "apiCalls") p else p)
    ((λ p, if truthyProp data "status"
           then set_status_textContent (propText data "status") p else p)
    ((λ p, if bool_decide (is_Some (prop data "progress"))
           then set_progressBar_width (propString data "progress" +:+ "%") p else p)
     p))))).
Proof. by destruct data as [[]| |]. Qed.

(** Everything [handleProgressUpdate] leaves behind, property by
    property. *)
Lemma handleProgressUpdate_fields (data : JSData number) (p : Page) :
  data ≠ JSPrim JSNull →
  ∃ p1, handleProgressUpdate data p = Normal p1 ∧
    progressBar_width p1 =
      (if bool_decide (is_Some (prop data "progress"))
       then propString data "progress" +:+ "%" else progressBar_width p) ∧
    status_textContent p1 =
      (if truthyProp data "status" then propText data "status"
       else status_textContent p) ∧
    apiCalls_textContent p1 =
      (if bool_decide (is_Some (prop data "apiCalls")) then propText data "apiCalls"
       else apiCalls_textContent p) ∧
    cached_textContent p1 =
      (if bool_decide (is_Some (prop data "cached")) then propText data "cached"
       else cached_textContent p) ∧
    logContainer p1 =
      logContainer p ++
      (if truthyProp data "message" then [logEntry p (propString data "message")]
       else []) ∧
    clockReads p1 = clockReads p + (if truthyProp data "message" then 1 else 0) ∧
    summary p1 = summary p ∧ downloadBtn p1 = downloadBtn p ∧
    translateBtn_disabled p1 = translateBtn_disabled p ∧
    fileName_textContent p1 = fileName_textContent p ∧
    progressSection_display p1 = progressSection_display p ∧
    requests p1 = requests p.
Proof.
  intros Hdata. rewrite handleProgressUpdate_shape by done.
  eexists. split; [reflexivity |]. simpl.
  destruct (bool_decide (is_Some (prop data "progress"))),
    (truthyProp data "status"), (bool_decide (is_Some (prop data "apiCalls"))),
    (bool_decide (is_Some (prop data "cached"))), (truthyProp data "message");
    simpl; rewrite ?app_nil_r, ?Nat.add_0_r, ?Nat.add_1_r; repeat split.
Qed.

(** The five ways the callback can go. *)
Lemma processUpdate_cases (p : Page) (r : Run) (update : string) :
  let caught p := addLog ("Non-JSON update: " +:+ update) p in
  (JSON_parse update = None ∧ processUpdate (p, r) update = (caught p, r)) ∨
  (JSON_parse update = Some (JSPrim JSNull) ∧
   processUpdate (p, r) update = (caught p, r)) ∨
  ∃ data p1,
    JSON_parse update = Some data ∧ data ≠ JSPrim JSNull ∧
    handleProgressUpdate data p = Normal p1 ∧
    ((truthyProp data "downloadUrl" = true ∧
      processUpdate (p, r) update =
        (caught p1, {| translationComplete := true;
                       summaryGenerated := summaryGenerated r;
                       finalDownloadUrl := default JSNull (prop data "downloadUrl") |})) ∨
     (truthyProp data "downloadUrl" = false ∧ truthyProp data "summary" = true ∧
      processUpdate (p, r) update =
        (addLog "Document summary generated and displayed"
           (set_summary {| currentSummary := default JSNull (prop data "summary");
                           summaryDisplay_textContent := propText data "summary";
                           summarySection_display := "block";
                           editSummaryBtn_disabled := false;
                           exportSummaryBtn_disabled := false |} p1),
         {| translationComplete := translationComplete r;
            summaryGenerated := true;
            finalDownloadUrl := finalDownloadUrl r |})) ∨
     (truthyProp data "downloadUrl" = false ∧ truthyProp data "summary" = false ∧
      processUpdate (p, r) update = (p1, r))).
Proof.
  intros caught. unfold processUpdate, tryUpdate.
  destruct (JSON_parse update) as [data|]; [| by left].
  destruct (null_or_not data) as [-> | Hdata]; [by right; left |].
  right; right. destruct (handleProgressUpdate_normal data p Hdata) as (p1 & Hp1 & _).
  exists data, p1. rewrite Hp1. repeat split; try done.
  destruct (truthyProp data "downloadUrl"); [by left |].
  destruct (truthyProp data "summary"); [right; left | right; right]; done.
Qed.

(** A property of the page that each callback either sets to what the
    line announces or leaves alone shows, after any lines, what the last
    announcing line announced. *)
Lemma foldl_last_value {A : Type} (f : Page → A) (announced : string → option A) :
  (∀ st update, f (processUpdate st update).1 = default (f st.1) (announced update)) →
  ∀ lines st,
    f (foldl processUpdate st lines).1 = default (f st.1) (last (omap announced lines)).
Proof.
  intros Hone lines. induction lines as [|update lines IH]; intros st; [done |].
  cbn [foldl]. rewrite IH, Hone.
  change (omap announced (update :: lines))
    with (match announced update with
          | Some a => a :: omap announced lines
          | None => omap announced lines
          end).
  destruct (announced update) as [a|]; [rewrite last_cons |];
    by destruct (last (omap announced lines)).
Qed.

(** What the callback leaves of a property that only [handleProgressUpdate]
    assigns. *)
Lemma processUpdate_display {A : Type} (f : Page → A) (announced : string → option A) :
  (∀ message p, f (addLog message p) = f p) →
  (∀ panel p, f (set_summary panel p) = f p) →
  (∀ update, JSON_parse update = None → announced update = None) →
  (∀ update, JSON_parse update = Some (JSPrim JSNull) → announced update = None) →
  (∀ update data p p1, JSON_parse update = Some data → data ≠ JSPrim JSNull →
     handleProgressUpdate data p = Normal p1 → f p1 = default (f p) (announced update)) →
  ∀ st update, f (processUpdate st update).1 = default (f st.1) (announced update).
Proof.
  intros Hlog Hsummary Hnone Hnull Hdata [p r] update.
  destruct (processUpdate_cases p r update)
    as [[Hparse ->] | [[Hparse ->] | (data & p1 & Hparse & Hnot & Hp1 & Hcases)]]; simpl.
  - by rewrite Hlog, Hnone.
  - by rewrite Hlog, Hnull.
  - rewrite <- (Hdata update data p p1) by done.
    destruct Hcases as [[_ ->] | [(_ & _ & ->) | (_ & _ & ->)]]; simpl;
      by rewrite ?Hlog, ?Hsummary.
Qed.

Lemma processUpdate_status (st : Page * Run) (update : string) :
  status_textContent (processUpdate st update).1 =
    default (status_textContent st.1) (announcedStatus update).
Proof.
  apply processUpdate_display; try done; unfold announcedStatus.
  - by intros update' ->.
  - by intros update' ->.
  - intros update' data p p1 -> Hnot Hp1. simpl.
    destruct (handleProgressUpdate_fields data p Hnot) as (p1' & Hp1' & _ & Hstatus & _).
    rewrite Hp1 in Hp1'. injection Hp1' as <-. rewrite Hstatus.
    unfold truthyProp, propText, propString.
    destruct (prop data "status") as [[|b|n|s]|]; simpl;
      [done | by destruct b | by destruct (Number_truthy n)
      | by destruct (Str.truthy s) | done].
Qed.

Lemma processUpdate_apiCalls (st : Page * Run) (update : string) :
  apiCalls_textContent (processUpdate st update).1 =
    default (apiCalls_textContent st.1) (announcedCount "apiCalls" update).
Proof.
  apply processUpdate_display; try done; unfold announcedCount.
  - by intros update' ->.
  - by intros update' ->.
  - intros update' data p p1 -> Hnot Hp1. simpl.
    destruct (handleProgressUpdate_fields data p Hnot)
      as (p1' & Hp1' & _ & _ & Hcount & _).
    rewrite Hp1 in Hp1'. injection Hp1' as <-. rewrite Hcount.
    unfold propText, propString. by destruct (prop data "apiCalls") as [[]|].
Qed.

Lemma processUpdate_cached (st : Page * Run) (update : string) :
  cached_textContent (processUpdate st update).1 =
    default (cached_textContent st.1) (announcedCount "cached" update).
Proof.
  apply processUpdate_display; try done; unfold announcedCount.
  - by intros update' ->.
  - by intros update' ->.
  - intros update' data p p1 -> Hnot Hp1. simpl.
    destruct (handleProgressUpdate_fields data p Hnot)
      as (p1' & Hp1' & _ & _ & _ & Hcount & _).
    rewrite Hp1 in Hp1'. injection Hp1' as <-. rewrite Hcount.
    unfold propText, propString. by destruct (prop data "cached") as [[]|].
Qed.

(** What no line can change. *)
Lemma processUpdate_frame {A : Type} (f : Page → A) :
  (∀ message p, f (addLog message p) = f p) →
  (∀ panel p, f (set_summary panel p) = f p) →
  (∀ data p p1, data ≠ JSPrim JSNull →
     handleProgressUpdate data p = Normal p1 → f p1 = f p) →
  ∀ lines st, f (foldl processUpdate st lines).1 = f st.1.
Proof.
  intros Hlog Hsummary Hdata lines st.
  rewrite (foldl_last_value f (λ _, None)).
  - by induction lines.
  - intros st' update. apply (processUpdate_display f (λ _, None)); try done.
    intros _ data p p1 _ Hnot Hp1. by apply (Hdata data).
Qed.

(** X5.  After any chunks, the status and the two counters each show what
    the last line that set them said, and are as they were when no line
    set them: a status is set by a truthy value only, a counter by any
    value that is there, [null] giving the empty text. *)
Theorem X5_last_value_shown (chunks : list (list byte)) (st : Page * Run) :
  let lines := decodedLines chunks in
  let p := (foldl processChunk st chunks).1 in
  status_textContent p =
    default (status_textContent st.1) (last (omap announcedStatus lines)) ∧
  apiCalls_textContent p =
    default (apiCalls_textContent st.1) (last (omap (announcedCount "apiCalls") lines)) ∧
  cached_textContent p =
    default (cached_textContent st.1) (last (omap (announcedCount "cached") lines)).
Proof.
  cbv zeta. rewrite foldl_processChunk. repeat split.
  - apply foldl_last_value, processUpdate_status.
  - apply foldl_last_value, processUpdate_apiCalls.
  - apply foldl_last_value, processUpdate_cached.
Qed.

End Updates.

(** ** A whole run *)

Section Runs.

Context `{Host}.

Lemma processUpdate_log (st : Page * Run) (update : string) :
  ∃ added, logContainer (processUpdate st update).1 = logContainer st.1 ++ added ∧
           length added ≤ 2.
Proof.
  destruct st as [p r].
  destruct (processUpdate_cases p r update)
    as [[Hparse ->] | [[Hparse ->] | (data & p1 & Hparse & Hnot & Hp1 & Hcases)]]; simpl.
  - eexists. split; [reflexivity |]. simpl. lia.
  - eexists. split; [reflexivity |]. simpl. lia.
  - destruct (handleProgressUpdate_fields data p Hnot)
      as (p1' & Hp1' & _ & _ & _ & _ & Hlog & _).
    rewrite Hp1 in Hp1'. injection Hp1' as <-.
    destruct Hcases as [[_ ->] | [(_ & _ & ->) | (Hurl & _ & ->)]]; simpl;
      rewrite Hlog, <- ?(assoc_L (++)); eexists; (split; [reflexivity |]);
      rewrite ?length_app; destruct (truthyProp data "message"); simpl; lia.
Qed.

Lemma foldl_processUpdate_log (lines : list string) (st : Page * Run) :
  logContainer st.1 `prefix_of` logContainer (foldl processUpdate st lines).1.
Proof.
  revert st. induction lines as [|update lines IH]; intros st; [done |].
  cbn [foldl]. destruct (processUpdate_log st update) as (added & Hadded & _).
  etrans; [| apply IH]. rewrite Hadded. by apply prefix_app_r.
Qed.

(** X6.  Reading a stream only appends to the log: the log before is a
    prefix of the log after, and a line adds two entries at most. *)
Theorem X6_log_only_grows (chunks : list (list byte)) (st : Page * Run) :
  logContainer st.1 `prefix_of` logContainer (foldl processChunk st chunks).1 ∧
  length (logContainer (foldl processChunk st chunks).1) ≤
    length (logContainer st.1) + 2 * length (decodedLines chunks).
Proof.
  rewrite foldl_processChunk. split; [apply foldl_processUpdate_log |].
  generalize (decodedLines chunks) as lines. intros lines. revert st.
  induction lines as [|update lines IH]; intros st; [simpl; lia |].
  cbn [foldl]. specialize (IH (processUpdate st update)).
  destruct (processUpdate_log st update) as (added & Hadded & Hmax).
  rewrite Hadded, length_app in IH. simpl. lia.
Qed.

Lemma readLoop_frame {A : Type} (f : Page → A) (body : Body) (st : Page * Run) :
  (∀ message p, f (addLog message p) = f p) →
  (∀ panel p, f (set_summary panel p) = f p) →
  (∀ data p p1, data ≠ JSPrim JSNull →
     handleProgressUpdate data p = Normal p1 → f p1 = f p) →
  match readLoop body st with
  | Normal st' => f st'.1 = f st.1
  | Throw _ st' => f st'.1 = f st.1
  end.
Proof.
  intros Hlog Hsummary Hdata. unfold readLoop. rewrite foldl_processChunk.
  pose proof (processUpdate_frame f Hlog Hsummary Hdata (decodedLines (chunks body)) st)
    as Hframe.
  destruct (foldl processUpdate st (decodedLines (chunks body))) as [p r].
  destruct (ending body); simpl in *; by rewrite ?Hlog.
Qed.

Lemma handleProgressUpdate_requests (data : JSData number) (p p1 : Page) :
  data ≠ JSPrim JSNull → handleProgressUpdate data p = Normal p1 →
  requests p1 = requests p ∧ fileName_textContent p1 = fileName_textContent p ∧
  progressSection_display p1 = progressSection_display p ∧
  summary p1 = summary p.
Proof.
  intros Hnot Hp1.
  destruct (handleProgressUpdate_fields data p Hnot)
    as (p1' & Hp1' & _ & _ & _ & _ & _ & _ & ? & _ & _ & ? & ? & ?).
  rewrite Hp1 in Hp1'. by injection Hp1' as <-.
Qed.

(** The loop sends nothing and leaves the file name and the progress
    section alone. *)
Lemma readLoop_untouched (body : Body) (st : Page * Run) :
  let st' := match readLoop body st with Normal st' => st' | Throw _ st' => st' end in
  requests st'.1 = requests st.1 ∧
  fileName_textContent st'.1 = fileName_textContent st.1 ∧
  progressSection_display st'.1 = progressSection_display st.1.
Proof.
  pose proof (readLoop_frame requests body st) as Hreq.
  pose proof (readLoop_frame fileName_textContent body st) as Hname.
  pose proof (readLoop_frame progressSection_display body st) as Hshow.
  destruct (readLoop body st) as [st' | e st']; simpl;
    (split; [apply Hreq | split; [apply Hname | apply Hshow]]); try done;
    intros data q q1 Hnot Hq;
    by destruct (handleProgressUpdate_requests data q q1) as (? & ? & ? & ?).
Qed.

(** X7.  A run sends one request, the POST of the file with the five form
    fields read from the page, whatever the server answers; it shows the
    progress section and leaves the displayed file name alone. *)
Theorem X7_one_request_per_run
    (file : File) (inputs : Inputs) (server : FetchResult) (p : Page) :
  requests (translateRun file inputs server p).1 =
    requests p ++
    [PostTranslate {| fd_file := file;
                      fd_targetLang := targetLang_value inputs;
                      fd_engine := engine_value inputs;
                      fd_generateSummary := generateSummary_checked inputs;
                      fd_tone := toneSelect_value inputs;
                      fd_pdfEngine := pdfEngine_value inputs |}] ∧
  fileName_textContent (translateRun file inputs server p).1 = fileName_textContent p ∧
  progressSection_display (translateRun file inputs server p).1 = "block".
Proof.
  unfold translateRun, tryTranslate.
  destruct server as [message | status body]; [done |].
  destruct (response_ok status); simpl; [| done].
  match goal with |- context [readLoop body ?st] =>
    pose proof (readLoop_untouched body st) as Hloop;
    destruct (readLoop body st) as [[p' r'] | e [p' r']]
  end; simpl in Hloop; destruct Hloop as (Hreq & Hname & Hshow); [| done].
  unfold afterStream.
  destruct (translationComplete r' && ToBoolean (finalDownloadUrl r')); simpl; [done |].
  by case_bool_decide.
Qed.

(** X8.  A run never ends on its Translating... status: a completed run
    reads Translation completed, a failed one Error, and an incomplete one
    reads Error exactly when the last status a line of the stream set is
    Error, and Translation incomplete or failed otherwise. *)
Theorem X8_final_status_by_outcome
    (file : File) (inputs : Inputs) (server : FetchResult) (p : Page) :
  match (translateRun file inputs server p).2 with
  | Completed =>
      status_textContent (translateRun file inputs server p).1 = "Translation completed"
  | Incomplete =>
      status_textContent (translateRun file inputs server p).1 =
        if bool_decide (lastStatus server = Some "Error") then "Error"
        else "Translation incomplete or failed"
  | Failed => status_textContent (translateRun file inputs server p).1 = "Error"
  end.
Proof.
  unfold translateRun, tryTranslate, lastStatus.
  destruct server as [message | status body]; [done |].
  destruct (response_ok status); simpl; [| done].
  unfold readLoop. rewrite foldl_processChunk.
  match goal with |- context [foldl processUpdate ?st _] =>
    pose proof (foldl_last_value status_textContent announcedStatus
                  processUpdate_status (decodedLines (chunks body)) st) as Hstatus
  end.
  destruct (foldl processUpdate _ _) as [p' r'].
  destruct (ending body); simpl in *; [| done].
  destruct (translationComplete r' && ToBoolean (finalDownloadUrl r')); simpl; [done |].
  destruct (last (omap announcedStatus (decodedLines (chunks body)))) as [text|];
    simpl in Hstatus; repeat case_bool_decide; simpl; congruence.
Qed.

(** The log after the loop starts with the log before it. *)
Lemma readLoop_log (body : Body) (st : Page * Run) :
  let st' := match readLoop body st with Normal st' => st' | Throw _ st' => st' end in
  logContainer st.1 `prefix_of` logContainer st'.1.
Proof.
  unfold readLoop. rewrite foldl_processChunk.
  pose proof (foldl_processUpdate_log (decodedLines (chunks body)) st) as Hprefix.
  destruct (foldl processUpdate st (decodedLines (chunks body))) as [p r].
  destruct (ending body); simpl in *; [| done].
  etrans; [exact Hprefix |]. by apply prefix_app_r.
Qed.

(** X9.  When the fetch is rejected or the response is not a success, the
    run fails without reading the body: the status is Error, the bar stays
    at 0%, the log holds the two opening entries and the error with its
    message, and the counters, the summary and the download button are as
    before. *)
Theorem X9_failed_submission
    (file : File) (inputs : Inputs) (server : FetchResult) (p : Page) (message : string) :
  submissionError server = Some message →
  (translateRun file inputs server p).2 = Failed ∧
  status_textContent (translateRun file inputs server p).1 = "Error" ∧
  progressBar_width (translateRun file inputs server p).1 = "0%" ∧
  logContainer (translateRun file inputs server p).1 =
    [ "[" +:+ toLocaleTimeString (clockReads p) +:+ "] Starting translation process...";
      "[" +:+ toLocaleTimeString (S (clockReads p)) +:+ "] Sending file to server...";
      "[" +:+ toLocaleTimeString (S (S (clockReads p))) +:+
        "] Error during translation: " +:+ message ] ∧
  apiCalls_textContent (translateRun file inputs server p).1 = apiCalls_textContent p ∧
  cached_textContent (translateRun file inputs server p).1 = cached_textContent p ∧
  summary (translateRun file inputs server p).1 = summary p ∧
  downloadBtn (translateRun file inputs server p).1 = downloadBtn p.
Proof.
  unfold submissionError, translateRun, tryTranslate.
  destruct server as [message' | status body].
  - by intros [= ->].
  - destruct (response_ok status); [done |]. by intros [= <-].
Qed.

(** X11.  A run empties the log before it writes to it: whatever was in
    the log, the log after the run begins with the two opening entries of
    this run. *)
Theorem X11_run_log_starts_afresh
    (file : File) (inputs : Inputs) (server : FetchResult) (p : Page) :
  ∃ rest,
    logContainer (translateRun file inputs server p).1 =
      ("[" +:+ toLocaleTimeString (clockReads p) +:+ "] Starting translation process...")
      :: ("[" +:+ toLocaleTimeString (S (clockReads p)) +:+ "] Sending file to server...")
      :: rest.
Proof.
  unfold translateRun, tryTranslate.
  destruct server as [message | status body]; [by eexists |].
  destruct (response_ok status); simpl; [| by eexists].
  match goal with |- context [readLoop body ?st] =>
    pose proof (readLoop_log body st) as [rest Hlog];
    destruct (readLoop body st) as [[p' r'] | e [p' r']]
  end; simpl in Hlog.
  - unfold afterStream.
    destruct (translationComplete r' && ToBoolean (finalDownloadUrl r')); simpl;
      [| case_bool_decide; simpl]; rewrite Hlog; simpl; by eexists.
  - simpl. rewrite Hlog. simpl. by eexists.
Qed.

End Runs.

(** ** Single lines *)

Section SingleLines.

Context `{Host}.

(** X10.  When a read is rejected in mid-stream the run fails with status
    Error and the error message as the last log entry, and what the lines
    before it set in the counters stays set: each counter shows the last
    value received. *)
Theorem X10_transport_error
    (file : File) (inputs : Inputs) (status : nat) (body : Body) (p : Page)
    (message : string) :
  response_ok status = true →
  ending body = StreamError message →
  let run := translateRun file inputs (FetchResponse status body) p in
  let lines := decodedLines (chunks body) in
  run.2 = Failed ∧
  status_textContent run.1 = "Error" ∧
  (∃ stamp, last (logContainer run.1) =
              Some ("[" +:+ stamp +:+ "] Error during translation: " +:+ message)) ∧
  apiCalls_textContent run.1 =
    default (apiCalls_textContent p) (last (omap (announcedCount "apiCalls") lines)) ∧
  cached_textContent run.1 =
    default (cached_textContent p) (last (omap (announcedCount "cached") lines)).
Proof.
  intros Hok Hend. cbv zeta. unfold translateRun, tryTranslate, readLoop.
  rewrite Hok, Hend. simpl. rewrite foldl_processChunk.
  match goal with |- context [foldl processUpdate ?st _] =>
    pose proof (foldl_last_value apiCalls_textContent (announcedCount "apiCalls")
                  processUpdate_apiCalls (decodedLines (chunks body)) st) as Hapi;
    pose proof (foldl_last_value cached_textContent (announcedCount "cached")
                  processUpdate_cached (decodedLines (chunks body)) st) as Hcached;
    destruct (foldl processUpdate st _) as [p' r']
  end; simpl in *.
  repeat split; try done. eexists. by rewrite last_snoc.
Qed.

(** X12.  A record with a truthy [summary] and no truthy [downloadUrl] is
    applied: the summary is kept and shown as text, the summary section is
    shown, the edit and export buttons are enabled, the log ends with the
    entry for it, and the run's URL and completion flag are untouched. *)
Theorem X12_summary_applied
    (update : string) (data : JSData number) (v : JSValue number) (p : Page) (r : Run) :
  JSON_parse update = Some data →
  prop data "summary" = Some v →
  ToBoolean v = true →
  truthyProp data "downloadUrl" = false →
  let st := processUpdate (p, r) update in
  summary st.1 = {| currentSummary := v;
                    summaryDisplay_textContent := ToString v;
                    summarySection_display := "block";
                    editSummaryBtn_disabled := false;
                    exportSummaryBtn_disabled := false |} ∧
  (∃ stamp, last (logContainer st.1) =
              Some ("[" +:+ stamp +:+ "] Document summary generated and displayed")) ∧
  st.2 = {| translationComplete := translationComplete r;
            summaryGenerated := true;
            finalDownloadUrl := finalDownloadUrl r |}.
Proof.
  intros Hparse Hsummary Hv Hurl. cbv zeta.
  destruct (processUpdate_cases p r update)
    as [[Hnone _] | [[Hnull _] | (data' & p1 & Hparse' & Hnot & Hp1 & Hcases)]].
  - congruence.
  - rewrite Hparse in Hnull. injection Hnull as ->. done.
  - rewrite Hparse in Hparse'. injection Hparse' as <-.
    assert (truthyProp data "summary" = true) as Htruthy
      by (unfold truthyProp; by rewrite Hsummary).
    destruct Hcases as [[? _] | [(_ & _ & ->) | (_ & ? & _)]]; [congruence | | congruence].
    simpl. unfold propText, propString. rewrite Hsummary. simpl. repeat split.
    + by destruct v.
    + eexists. by rewrite last_snoc.
Qed.

(** X13.  [handleProgressUpdate] is idempotent on records without a truthy
    [message]: applying such a record a second time changes nothing. *)
Theorem X13_progress_update_idempotent (data : JSData number) (p p1 : Page) :
  handleProgressUpdate data p = Normal p1 →
  truthyProp data "message" = false →
  handleProgressUpdate data p1 = Normal p1.
Proof.
  intros Hp1 Hmessage.
  destruct (null_or_not data) as [-> | Hnot]; [done |].
  rewrite handleProgressUpdate_shape in Hp1 |- * by done.
  injection Hp1 as <-. rewrite Hmessage.
  destruct (bool_decide (is_Some (prop data "progress"))), (truthyProp data "status"),
    (bool_decide (is_Some (prop data "apiCalls"))),
    (bool_decide (is_Some (prop data "cached"))); by destruct p.
Qed.

(** X14.  A line that parses to something other than an object is not
    reported: a number, a string, a boolean or an array changes nothing at
    all, and only [null] is logged as a non-JSON update. *)
Theorem X14_scalar_line_is_dropped
    (update : string) (data : JSData number) (p : Page) (r : Run) :
  JSON_parse update = Some data →
  (∀ fields, data ≠ JSObject fields) →
  processUpdate (p, r) update =
    match data with
    | JSPrim JSNull => (addLog ("Non-JSON update: " +:+ update) p, r)
    | _ => (p, r)
    end.
Proof.
  intros Hparse Hscalar. unfold processUpdate, tryUpdate. rewrite Hparse.
  destruct data as [[]| |fields]; try done. by destruct (Hscalar fields).
Qed.

End SingleLines.

(** ** The other handlers *)

Section Handlers.

Context `{Host}.

(** X15.  A click on the clear-cache button sends one request and appends
    one log entry, whatever the answer, and never touches the status, the
    progress bar, the summary, the download button, the translate button
    or the file name. *)
Theorem X15_clear_cache_effects (server : CacheResult) (p : Page) :
  requests (clearCacheClick server p) = requests p ++ [PostClearCache] ∧
  (∃ message, logContainer (clearCacheClick server p) =
                logContainer p ++ [logEntry p message]) ∧
  status_textContent (clearCacheClick server p) = status_textContent p ∧
  progressBar_width (clearCacheClick server p) = progressBar_width p ∧
  summary (clearCacheClick server p) = summary p ∧
  downloadBtn (clearCacheClick server p) = downloadBtn p ∧
  translateBtn_disabled (clearCacheClick server p) = translateBtn_disabled p ∧
  fileName_textContent (clearCacheClick server p) = fileName_textContent p.
Proof.
  unfold clearCacheClick, tryClearCache.
  destruct server as [message | status [message | data]]; simpl;
    try destruct (response_ok status); simpl;
    try (destruct data as [[]| |]; simpl); repeat split; by eexists.
Qed.

(** X16.  On a successful answer the counters are reset before the message
    is read: a body that is [null] resets them and then logs an error, and
    a body without a [message] logs Cache cleared: undefined. *)
Theorem X16_clear_cache_answer_shapes (status : nat) (data : JSData number) (p : Page) :
  response_ok status = true →
  let p' := clearCacheClick (CacheResponse status (JsonValue data)) p in
  apiCalls_textContent p' = "0" ∧ cached_textContent p' = "0" ∧
  logContainer p' =
    logContainer p ++
    [logEntry p
       match data with
       | JSPrim JSNull => "Error clearing cache: " +:+ engineMessage TypeError
       | JSObject fields =>
           "Cache cleared: " +:+ from_option ToString "undefined" (fields !! "message")
       | _ => "Cache cleared: undefined"
       end].
Proof.
  intros Hok. cbv zeta. unfold clearCacheClick, tryClearCache. rewrite Hok.
  by destruct data as [[]| |].
Qed.


(** X18.  Whatever the user clicks and types, the four display properties
    are in the arrangement of the last click: editing after edit, viewing
    after save, and as they were when nothing was clicked. *)
Theorem X18_editor_mode_follows_last_click
    (actions : list EditorAction) (st : Page * Editor) :
  modeOf (foldl editorStep st actions).2 =
    match last (omap clickMode actions) with
    | Some mode => Some mode
    | None => modeOf st.2
    end.
Proof.
  revert st. induction actions as [|action actions IH]; intros st; [done |].
  cbn [foldl]. rewrite IH.
  change (omap clickMode (action :: actions))
    with (match clickMode action with
          | Some mode => mode :: omap clickMode actions
          | None => omap clickMode actions
          end).
  destruct st as [p editor].
  destruct action; simpl; rewrite ?last_cons;
    by destruct (last (omap clickMode actions)).
Qed.

(** X19.  Export posts the saved text, not the draft: after edit, typing
    and save, the typed text is shown and posted; without the save the
    shown summary and the posted one are the old ones. *)
Theorem X19_export_posts_saved_text
    (text : string) (server : ExportResult) (st : Page * Editor) :
  let drafted := typeSummary text (editSummaryClick st) in
  let saved := saveSummaryClick drafted in
  summaryDisplay_textContent (summary saved.1) = text ∧
  posted (exportSummaryClick server saved.1).2 = JSObject {[ "summary" := JSString text ]} ∧
  summaryDisplay_textContent (summary drafted.1) = summaryDisplay_textContent (summary st.1) ∧
  posted (exportSummaryClick server drafted.1).2 =
    JSObject {[ "summary" := currentSummary (summary st.1) ]}.
Proof.
  destruct st as [p editor]. cbv zeta. simpl.
  unfold exportSummaryClick. repeat split;
    by destruct (tryExportSummary server _) as [[] |].
Qed.

(** The two equations of the normalisation. *)
Lemma normalizeLineBreaks_cr (d : ascii) (rest : string) :
  normalizeLineBreaks (String "013"%char (String d rest)) =
    String Str.LF (if decide (d = Str.LF) then normalizeLineBreaks rest
                   else normalizeLineBreaks (String d rest)).
Proof. simpl. by destruct (decide (d = Str.LF)). Qed.

Lemma normalizeLineBreaks_other (c : ascii) (rest : string) :
  c ≠ "013"%char →
  normalizeLineBreaks (String c rest) = String c (normalizeLineBreaks rest).
Proof. intros Hc. simpl. by rewrite decide_False. Qed.

(** A normalised text has no carriage return, and a text without one is
    its own normal form. *)
Lemma normalizeLineBreaks_free_below (n : nat) (s : string) :
  String.length s ≤ n → "013"%char ∉ chars (normalizeLineBreaks s).
Proof.
  revert s. induction n as [|n IH]; intros s Hlen.
  - destruct s; simpl in *; [apply not_elem_of_nil | lia].
  - destruct s as [|c rest]; [apply not_elem_of_nil |].
    destruct (decide (c = "013"%char)) as [-> | Hc].
    + destruct rest as [|d rest'].
      * apply not_elem_of_cons. split; [done | apply not_elem_of_nil].
      * rewrite normalizeLineBreaks_cr.
        apply not_elem_of_cons. split; [done |].
        simpl in Hlen. case_decide; apply IH; simpl; lia.
    + rewrite normalizeLineBreaks_other by done.
      apply not_elem_of_cons. split; [congruence |]. apply IH. simpl in Hlen. lia.
Qed.

Lemma normalizeLineBreaks_id (s : string) :
  "013"%char ∉ chars s → normalizeLineBreaks s = s.
Proof.
  induction s as [|c rest IH]; simpl; [done |].
  intros [Hc Hrest]%not_elem_of_cons. rewrite decide_False by congruence.
  by rewrite IH.
Qed.

(** X24.  Edit followed at once by save shows the summary with its line
    breaks normalised, a carriage return with or without a line feed after
    it becoming one line feed, and keeps that text as the current summary;
    the text then has no carriage return, so doing it again changes
    nothing, and the page is back in viewing mode. *)
Theorem X24_edit_save_round_trip (st : Page * Editor) :
  let once := saveSummaryClick (editSummaryClick st) in
  let twice := saveSummaryClick (editSummaryClick once) in
  summaryDisplay_textContent (summary once.1) =
    normalizeLineBreaks (summaryDisplay_textContent (summary st.1)) ∧
  currentSummary (summary once.1) =
    JSString (summaryDisplay_textContent (summary once.1)) ∧
  ("013"%char ∉ chars (summaryDisplay_textContent (summary once.1))) ∧
  twice = once ∧
  modeOf once.2 = Some Viewing.
Proof.
  destruct st as [p editor]. cbv zeta. simpl. repeat split.
  - by apply (normalizeLineBreaks_free_below _ _ (Nat.le_refl _)).
  - rewrite normalizeLineBreaks_id; [done |].
    by apply (normalizeLineBreaks_free_below _ _ (Nat.le_refl _)).
Qed.

(** X20.  After any drag events the drop zone has the class dragover
    exactly when the last event was a dragenter or a dragover; its other
    classes are never changed. *)
Theorem X20_drop_zone_highlight (events : list DragEvent) (st : Page * gset string) :
  ("dragover" ∈ (dragAll events st).2 ↔
   match last events with
   | Some event => highlights event = true
   | None => "dragover" ∈ st.2
   end) ∧
  (dragAll events st).2 ∖ {[ "dragover" ]} = st.2 ∖ {[ "dragover" ]}.
Proof.
  unfold dragAll. revert st. induction events as [|event events IH]; intros st; [done |].
  cbn [foldl].
  destruct (IH (dropZoneListeners event (dispatched event) st).2) as [IHlast IHrest].
  rewrite IHlast, IHrest, last_cons. destruct st as [p classList]. split.
  - destruct (last events); [done |].
    destruct event; unfold highlight, unhighlight; simpl; set_solver.
  - destruct event; unfold highlight, unhighlight; simpl; set_solver.
Qed.

(** X21.  A dropped file with an accepted name is shown and enables the
    translate button, but it is not put in the file input: with the file
    input empty, the click on the enabled button returns at once. *)
Theorem X21_dropped_file_is_not_submitted
    (file : File) (others : list File) (inputs : Inputs) (server : FetchResult)
    (st : Page * gset string) :
  acceptsName (name file) = true →
  fileInput_files inputs = [] →
  let dropped := (dragAll [Drop (file :: others)] st).1 in
  fileName_textContent dropped = name file ∧
  translateBtn_disabled dropped = false ∧
  translateClick inputs server dropped = (dropped, None).
Proof.
  intros Haccepted Hfiles. destruct st as [p classList]. cbv zeta.
  unfold translateClick, dragAll. rewrite Hfiles. simpl.
  unfold handleDrop, handleFiles. by rewrite Haccepted.
Qed.

(** The download button after a run: bound to the URL the run recorded, or
    as it was. *)
Lemma translateRun_downloadBtn
    (file : File) (inputs : Inputs) (server : FetchResult) (p : Page) :
  downloadBtn (translateRun file inputs server p).1 =
    match terminalDownloadUrl server with
    | Some url => Some {| onclick_href := Some url |}
    | None => downloadBtn p
    end.
Proof.
  unfold translateRun, tryTranslate, terminalDownloadUrl.
  destruct server as [message | status body]; [done |].
  destruct (response_ok status); simpl; [| done].
  unfold readLoop. rewrite foldl_processChunk.
  match goal with |- context [foldl processUpdate ?st _] =>
    pose proof (foldl_processUpdate_url (decodedLines (chunks body)) st) as Hurl;
    pose proof (foldl_processUpdate_downloadBtn (decodedLines (chunks body)) st) as Hbtn
  end.
  destruct (foldl processUpdate _ _) as [p' r'].
  destruct (ending body); simpl; [| done].
  destruct (last (omap announcedUrl (decodedLines (chunks body)))) as [url|];
    simpl in Hurl.
  - by destruct Hurl as (-> & -> & ->).
  - destruct Hurl as (-> & ->). simpl in *. by case_bool_decide.
Qed.

(** X23.  A file chosen through the file input is the one the click posts,
    whether or not its name was accepted: the click handler does not test
    the name again. *)
Theorem X23_chosen_file_is_submitted
    (file : File) (others : list File) (inputs : Inputs) (server : FetchResult) (p : Page) :
  fileInput_files inputs = file :: others →
  let chosen := fileInputChange inputs p in
  is_Some (translateClick inputs server chosen).2 ∧
  last (requests (translateClick inputs server chosen).1) =
    Some (PostTranslate {| fd_file := file;
                           fd_targetLang := targetLang_value inputs;
                           fd_engine := engine_value inputs;
                           fd_generateSummary := generateSummary_checked inputs;
                           fd_tone := toneSelect_value inputs;
                           fd_pdfEngine := pdfEngine_value inputs |}).
Proof.
  intros Hfiles. cbv zeta. unfold translateClick. rewrite Hfiles.
  destruct (translateRun file inputs server (fileInputChange inputs p))
    as [p' outcome] eqn:Hrun.
  split; [done |]. simpl.
  assert (p' = (translateRun file inputs server (fileInputChange inputs p)).1) as ->
    by by rewrite Hrun.
  clear Hrun. unfold translateRun, tryTranslate.
  destruct server as [message | status body]; [simpl; by rewrite last_snoc |].
  destruct (response_ok status); simpl; [| by rewrite last_snoc].
  match goal with |- context [readLoop body ?st] =>
    pose proof (readLoop_untouched body st) as Hloop;
    destruct (readLoop body st) as [[q r'] | e [q r']]
  end; simpl in Hloop; destruct Hloop as (Hreq & _ & _).
  - unfold afterStream.
    destruct (translationComplete r' && ToBoolean (finalDownloadUrl r')); simpl;
      [| case_bool_decide; simpl]; by rewrite Hreq, last_snoc.
  - simpl. by rewrite Hreq, last_snoc.
Qed.

(** X22.  After a run, a click on the download button navigates to the URL
    the run recorded; when the run recorded none, the button does what it
    did before the run, so the link of an earlier run stays. *)
Theorem X22_download_click_after_run
    (file : File) (inputs : Inputs) (server : FetchResult) (p : Page) :
  (downloadBtnClick (translateRun file inputs server p).1).2 =
    match terminalDownloadUrl server with
    | Some url => Some url
    | None => (downloadBtnClick p).2
    end.
Proof.
  unfold downloadBtnClick. rewrite translateRun_downloadBtn.
  destruct (terminalDownloadUrl server); [done |].
  by destruct (downloadBtn p) as [[[]]|].
Qed.

End Handlers.

(** * The further properties at the sample hosts *)

Section MoreSampleRuns.

#[local] Existing Instance Lines.host.

(** X9 at a sample input. *)
Lemma X9_failed_submission_witness :
  submissionError (FetchResponse 500 {| chunks := []; ending := StreamDone |}) =
    Some "Translation failed with status: 500" ∧
  logContainer (translateRun Sample.exampleFile Lines.chosen
                  (FetchResponse 500 {| chunks := []; ending := StreamDone |})
                  Lines.page).1 =
    [ "[0] Starting translation process...";
      "[1] Sending file to server...";
      "[2] Error during translation: Translation failed with status: 500" ].
Proof.
  assert (submissionError (FetchResponse 500 {| chunks := []; ending := StreamDone |}) =
    Some "Translation failed with status: 500") as Herror by reflexivity.
  split; [exact Herror |].
  destruct (X9_failed_submission Sample.exampleFile Lines.chosen _ Lines.page _ Herror)
    as (_ & _ & _ & Hlog & _).
  exact Hlog.
Defined.

(** X10 at a sample input. *)
Lemma X10_transport_error_witness :
  response_ok 200 = true ∧
  ending {| chunks := [Sample.bytes Lines.counted];
            ending := StreamError "connection reset" |} =
    StreamError "connection reset" ∧
  apiCalls_textContent
    (translateRun Sample.exampleFile Lines.chosen
       (FetchResponse 200 {| chunks := [Sample.bytes Lines.counted];
                             ending := StreamError "connection reset" |})
       Lines.page).1 = "3".
Proof.
  split; [reflexivity |]. split; [reflexivity |].
  destruct (X10_transport_error Sample.exampleFile Lines.chosen 200
              {| chunks := [Sample.bytes Lines.counted];
                 ending := StreamError "connection reset" |}
              Lines.page "connection reset" eq_refl eq_refl)
    as (_ & _ & _ & Hcalls & _).
  rewrite Hcalls. reflexivity.
Defined.

(** X12 at a sample input. *)
Lemma X12_summary_applied_witness :
  JSON_parse Lines.summaryOnly = Some (JSObject {[ "summary" := JSString "ok" ]}) ∧
  prop (JSObject {[ "summary" := JSString "ok" ]}) "summary" = Some (JSString "ok") ∧
  ToBoolean (JSString "ok") = true ∧
  truthyProp (JSObject {[ "summary" := JSString "ok" ]}) "downloadUrl" = false ∧
  summaryDisplay_textContent
    (summary (processUpdate (Lines.page, newRun) Lines.summaryOnly).1) = "ok".
Proof.
  repeat (split; [reflexivity |]).
  destruct (X12_summary_applied Lines.summaryOnly (JSObject {[ "summary" := JSString "ok" ]})
              (JSString "ok") Lines.page newRun eq_refl eq_refl eq_refl eq_refl)
    as (Hsummary & _).
  rewrite Hsummary. reflexivity.
Defined.

(** X13 at a sample input. *)
Lemma X13_progress_update_idempotent_witness :
  handleProgressUpdate (JSObject {[ "progress" := JSNumber 10%Z ]}) Lines.page =
    Normal (set_progressBar_width "10%" Lines.page) ∧
  truthyProp (JSObject {[ "progress" := JSNumber 10%Z ]}) "message" = false ∧
  handleProgressUpdate (JSObject {[ "progress" := JSNumber 10%Z ]})
    (set_progressBar_width "10%" Lines.page) =
    Normal (set_progressBar_width "10%" Lines.page).
Proof.
  assert (handleProgressUpdate (JSObject {[ "progress" := JSNumber 10%Z ]}) Lines.page =
    Normal (set_progressBar_width "10%" Lines.page)) as Hfirst by reflexivity.
  assert (truthyProp (JSObject {[ "progress" := JSNumber 10%Z ]}) "message" = false)
    as Hmessage by reflexivity.
  split; [exact Hfirst |]. split; [exact Hmessage |].
  exact (X13_progress_update_idempotent _ _ _ Hfirst Hmessage).
Defined.

(** X14 at a sample input. *)
Lemma X14_scalar_line_is_dropped_witness :
  JSON_parse Lines.five = Some (JSPrim (JSNumber 5%Z)) ∧
  (∀ fields, JSPrim (JSNumber 5%Z) ≠ JSObject fields) ∧
  processUpdate (Lines.page, newRun) Lines.five = (Lines.page, newRun).
Proof.
  assert (∀ fields : gmap string (JSValue number),
            JSPrim (JSNumber 5%Z) ≠ JSObject fields) as Hscalar
    by (intros fields; discriminate).
  split; [reflexivity |]. split; [exact Hscalar |].
  exact (X14_scalar_line_is_dropped Lines.five (JSPrim (JSNumber 5%Z)) Lines.page newRun
           eq_refl Hscalar).
Defined.

(** X16 at a sample input. *)
Lemma X16_clear_cache_answer_shapes_witness :
  response_ok 200 = true ∧
  logContainer (clearCacheClick (CacheResponse 200 (JsonValue (JSObject ∅))) Lines.page) =
    ["[0] Cache cleared: undefined"].
Proof.
  split; [reflexivity |].
  destruct (X16_clear_cache_answer_shapes 200 (JSObject ∅) Lines.page eq_refl)
    as (_ & _ & Hlog).
  exact Hlog.
Defined.

(** X21 at a sample input. *)
Lemma X21_dropped_file_is_not_submitted_witness :
  acceptsName (name Sample.exampleFile) = true ∧
  fileInput_files Sample.noInputs = [] ∧
  translateClick Sample.noInputs (FetchRejected "offline")
    (dragAll [Drop [Sample.exampleFile]] (Lines.page, ∅)).1 =
    ((dragAll [Drop [Sample.exampleFile]] (Lines.page, ∅)).1, None).
Proof.
  split; [reflexivity |]. split; [reflexivity |].
  destruct (X21_dropped_file_is_not_submitted Sample.exampleFile [] Sample.noInputs
              (FetchRejected "offline") (Lines.page, ∅) eq_refl eq_refl)
    as (_ & _ & Hclick).
  exact Hclick.
Defined.

(** X23 at a sample input. *)
Lemma X23_chosen_file_is_submitted_witness :
  fileInput_files Lines.chosen = [Sample.exampleFile] ∧
  is_Some (translateClick Lines.chosen (FetchRejected "offline")
             (fileInputChange Lines.chosen Lines.page)).2.
Proof.
  split; [reflexivity |].
  destruct (X23_chosen_file_is_submitted Sample.exampleFile [] Lines.chosen
              (FetchRejected "offline") Lines.page eq_refl)
    as (Hrun & _).
  exact Hrun.
Defined.

End MoreSampleRuns.
